(** * Announcements endpoints of the High School Management System API

    A shallow embedding of [src/backend/routers/announcements.py] together
    with the parts of its runtime the handlers rely on: Python strings and
    [datetime], bson's [ObjectId], and the pymongo collection operations
    [find], [find_one], [insert_one], [update_one] and [delete_one]. *)

From Stdlib Require Import ZArith String Ascii List Bool Lia.
From stdpp Require Import base option list gmap strings.

#[local] Set Warnings "-register-all".

Local Open Scope string_scope.
Local Open Scope Z_scope.

(* ===================================================================== *)
(** ** Python strings *)
(* ===================================================================== *)

Module PyStr.

(** [s.replace(c, by)] for a one-character pattern [c]: every occurrence
    is replaced, left to right. *)
Fixpoint replace (c : ascii) (by_ : string) (s : string) : string :=
  match s with
  | EmptyString => EmptyString
  | String a s' =>
      if Ascii.eqb a c then by_ ++ replace c by_ s'
      else String a (replace c by_ s')
  end.

(** [s[n:]] *)
Fixpoint drop (n : nat) (s : string) : string :=
  match n, s with
  | O, _ => s
  | S _, EmptyString => EmptyString
  | S n', String _ s' => drop n' s'
  end.

Definition digit_val (a : ascii) : option Z :=
  let n := Z.of_N (N_of_ascii a) in
  if (48 <=? n) && (n <=? 57) then Some (n - 48) else None.

Definition digit_char (d : Z) : ascii :=
  ascii_of_N (Z.to_N (48 + d mod 10)).

(** ["%0<w>d" % n] for [0 <= n < 10^w]. *)
Fixpoint zero_pad (w : nat) (n : Z) : string :=
  match w with
  | O => EmptyString
  | S w' => String (digit_char (n / 10 ^ Z.of_nat w')) (zero_pad w' n)
  end.

(** Python truthiness of an [Optional[str]]: [None] and the empty string
    are falsy. *)
Definition truthy (o : option string) : bool :=
  match o with
  | None => false
  | Some EmptyString => false
  | Some (String _ _) => true
  end.

End PyStr.

(* ===================================================================== *)
(** ** [datetime] *)
(* ===================================================================== *)

Module Datetime.

(** A [datetime] value. [tzinfo] is [None] for a naive value and
    [Some off] for an aware one, [off] being its UTC offset in
    microseconds. *)
Record datetime := mk_datetime {
  year : Z; month : Z; day : Z;
  hour : Z; minute : Z; second : Z; microsecond : Z;
  tzinfo : option Z
}.

Definition is_leap (y : Z) : bool :=
  (y mod 4 =? 0) && (negb (y mod 100 =? 0) || (y mod 400 =? 0)).

Definition days_in_month (y m : Z) : Z :=
  if m =? 2 then (if is_leap y then 29 else 28)
  else if (m =? 4) || (m =? 6) || (m =? 9) || (m =? 11) then 30
  else 31.

Definition days_before_year (y : Z) : Z :=
  let p := y - 1 in p * 365 + p / 4 - p / 100 + p / 400.

Fixpoint days_before_month_aux (y : Z) (n : nat) : Z :=
  match n with
  | O => 0
  | S n' => days_before_month_aux y n' + days_in_month y (Z.of_nat n)
  end.

Definition days_before_month (y m : Z) : Z :=
  days_before_month_aux y (Z.to_nat (m - 1)).

(** [d.toordinal()] *)
Definition toordinal (d : datetime) : Z :=
  days_before_year (year d) + days_before_month (year d) (month d) + day d.

(** Microseconds since the start of day 0 of the proleptic calendar, on
    the value's own wall clock. *)
Definition wall_us (d : datetime) : Z :=
  ((toordinal d * 86400 + hour d * 3600 + minute d * 60 + second d)
     * 1000000) + microsecond d.

Definition fields_cmp (a b : datetime) : comparison :=
  match year a ?= year b with Eq =>
  match month a ?= month b with Eq =>
  match day a ?= day b with Eq =>
  match hour a ?= hour b with Eq =>
  match minute a ?= minute b with Eq =>
  match second a ?= second b with Eq =>
    microsecond a ?= microsecond b
  | c => c end | c => c end | c => c end
  | c => c end | c => c end | c => c end.

(** [datetime._cmp]: values with the same offset (two naive values
    included) compare field by field; a naive and an aware value do not
    compare ([None] stands for the [TypeError] the ordering operators
    raise); two aware values with different offsets compare as instants. *)
Definition cmp (a b : datetime) : option comparison :=
  match tzinfo a, tzinfo b with
  | None, None => Some (fields_cmp a b)
  | None, Some _ | Some _, None => None
  | Some oa, Some ob =>
      if oa =? ob then Some (fields_cmp a b)
      else Some ((wall_us a - oa) ?= (wall_us b - ob))
  end.

(** [a <= b] and [a >= b]; [None] is the [TypeError]. *)
Definition le (a b : datetime) : option bool :=
  c ← cmp a b; Some (match c with Gt => false | _ => true end).

Definition ge (a b : datetime) : option bool :=
  c ← cmp a b; Some (match c with Lt => false | _ => true end).

(** Argument checks of the [datetime] and [timezone] constructors. *)
Definition valid_fields (y mo d h mi s us : Z) : bool :=
  (1 <=? y) && (y <=? 9999) && (1 <=? mo) && (mo <=? 12) &&
  (1 <=? d) && (d <=? days_in_month y mo) &&
  (0 <=? h) && (h <=? 23) && (0 <=? mi) && (mi <=? 59) &&
  (0 <=? s) && (s <=? 59) && (0 <=? us) && (us <=? 999999).

Definition day_us : Z := 86400 * 1000000.

Definition valid_offset (off : Z) : bool :=
  (- day_us <? off) && (off <? day_us).

(** *** [datetime.fromisoformat]

    The parser is the one of CPython 3.11, the interpreter the application
    runs on ([Modules/_datetimemodule.c]). It works on the UTF-8 bytes of
    the string through a pointer; a position below is an index into these
    bytes. *)

(** The byte at a position. The buffer ends with a NUL byte, which is
    what is read at the length of the string. *)
Definition byte_at (s : string) (p : nat) : ascii :=
  match String.get p s with
  | Some a => a
  | None => Ascii.zero
  end.

Definition is_digit (a : ascii) : bool :=
  match PyStr.digit_val a with
  | Some _ => true
  | None => false
  end.

(** [parse_digits(ptr, &var, num_digits)]: [n] decimal digits from
    position [p] on, added to [acc]; the pointer returned is [p + n]. *)
Fixpoint parse_digits (s : string) (p : nat) (n : nat) (acc : Z) : option Z :=
  match n with
  | O => Some acc
  | S n' =>
      d ← PyStr.digit_val (byte_at s p);
      parse_digits s (S p) n' (10 * acc + d)
  end.

(** [ymd_to_ord] and [weekday]: Monday is 0. *)
Definition ymd_to_ord (y m d : Z) : Z :=
  days_before_year y + days_before_month y m + d.

Definition weekday (y m d : Z) : Z := (ymd_to_ord y m d + 6) mod 7.

(** [iso_week1_monday]: ordinal of the Monday that starts ISO week 1. *)
Definition iso_week1_monday (y : Z) : Z :=
  let first_day := ymd_to_ord y 1 1 in
  let first_weekday := (first_day + 6) mod 7 in
  let week1_monday := first_day - first_weekday in
  if 3 <? first_weekday then week1_monday + 7 else week1_monday.

(** [ord_to_ymd]: the date of a proleptic Gregorian ordinal, 1 being
    January 1 of year 1. *)
Definition ord_to_ymd (ordinal : Z) : Z * Z * Z :=
  let n := ordinal - 1 in
  let n400 := n / 146097 in
  let n := n mod 146097 in
  let n100 := n / 36524 in
  let n := n mod 36524 in
  let n4 := n / 1461 in
  let n := n mod 1461 in
  let n1 := n / 365 in
  let n := n mod 365 in
  let y := n400 * 400 + 1 + n100 * 100 + n4 * 4 + n1 in
  if (n1 =? 4) || (n100 =? 4) then (y - 1, 12, 31)
  else
    let m := (n + 50) / 32 in
    let preceding := days_before_month y m in
    if n <? preceding
    then (y, m - 1, n - (preceding - days_in_month y (m - 1)) + 1)
    else (y, m, n - preceding + 1).

(** [iso_to_ymd]: the date of day [iso_day] of week [iso_week] of an ISO
    year. Week 53 exists in the years that start on a Thursday, and in
    the leap years that start on a Wednesday. For year 0 the arithmetic
    of the C code ends in a month below 1, which the constructor
    refuses: it is refused here. *)
Definition iso_to_ymd (iso_year iso_week iso_day : Z) : option (Z * Z * Z) :=
  let first_weekday := weekday iso_year 1 1 in
  let has_53 :=
    (first_weekday =? 3) || ((first_weekday =? 2) && is_leap iso_year) in
  if iso_year <? 1 then None
  else if (iso_week <=? 0) || (54 <=? iso_week) then None
  else if (iso_week =? 53) && negb has_53 then None
  else if (iso_day <=? 0) || (8 <=? iso_day) then None
  else
    Some (ord_to_ymd
            (iso_week1_monday iso_year + (iso_week - 1) * 7 + iso_day - 1)).

(** [_find_isoformat_datetime_separator]: where the date ends, decided
    from the bytes at 4 and 5 (and, for week dates, at 8 and 10, or from
    the run of digits after position 7). [None] is the -1 it returns for
    [YYYY-W] in fewer than 8 bytes and for [YYYY-Www-] in 9: the date
    parser then looks for a digit at the terminating NUL, and fails. *)
Fixpoint digit_run (s : string) : nat :=
  match s with
  | EmptyString => O
  | String a s' => if is_digit a then S (digit_run s') else O
  end.

Definition find_isoformat_datetime_separator (dtstr : string) : option nat :=
  let len := String.length dtstr in
  if (len =? 7)%nat then Some 7%nat
  else if Ascii.eqb (byte_at dtstr 4) "-" then
    if Ascii.eqb (byte_at dtstr 5) "W" then
      if (len <? 8)%nat then None
      else if (8 <? len)%nat && Ascii.eqb (byte_at dtstr 8) "-" then
        if (len =? 9)%nat then None
        else if (10 <? len)%nat && is_digit (byte_at dtstr 10)
        then Some 8%nat
        else Some 10%nat
      else Some 8%nat
    else Some 10%nat
  else if Ascii.eqb (byte_at dtstr 4) "W" then
    let idx := (7 + digit_run (PyStr.drop 7 dtstr))%nat in
    if (idx <? 9)%nat then Some idx
    else if Nat.even idx then Some 7%nat
    else Some 8%nat
  else Some 8%nat.

(** [parse_isoformat_date]: [YYYY-MM-DD], [YYYYMMDD], [YYYY-Www],
    [YYYYWww], [YYYY-Www-D] or [YYYYWwwD] at the start of the buffer;
    [len] is the position of the separator. *)
Definition parse_isoformat_date (dtstr : string) (len : nat)
  : option (Z * Z * Z) :=
  y ← parse_digits dtstr 0 4 0;
  let uses_separator := Ascii.eqb (byte_at dtstr 4) "-" in
  let p := if uses_separator then 5%nat else 4%nat in
  if Ascii.eqb (byte_at dtstr p) "W" then
    iso_week ← parse_digits dtstr (p + 1) 2 0;
    let p := (p + 3)%nat in
    if (p <? len)%nat then
      if uses_separator && negb (Ascii.eqb (byte_at dtstr p) "-") then None
      else
        let p := if uses_separator then S p else p in
        iso_day ← parse_digits dtstr p 1 0;
        iso_to_ymd y iso_week iso_day
    else iso_to_ymd y iso_week 1
  else
    mo ← parse_digits dtstr p 2 0;
    let p := (p + 2)%nat in
    if uses_separator && negb (Ascii.eqb (byte_at dtstr p) "-") then None
    else
      let p := if uses_separator then S p else p in
      d ← parse_digits dtstr p 2 0;
      Some (y, mo, d).

(** What the loop of [parse_hh_mm_ss_ff] does after the two digits of a
    component, [p] being the position after them and [c] the byte there:
    it returns (with [c != 0]), goes on to the next component, leaves
    for the fraction, or fails. The first component decides whether the
    components are separated by colons. *)
Inductive after_component :=
| Return (not_at_end : bool)
| Continue (p : nat) (has_separator : bool)
| Break (p : nat)
| Fail.

Definition after_digits (s : string) (p p_end : nat)
    (first has_separator : bool) : after_component :=
  let c := byte_at s p in
  let has_separator := if first then Ascii.eqb c ":" else has_separator in
  if (p_end <=? S p)%nat then Return (negb (Ascii.eqb c Ascii.zero))
  else if has_separator && Ascii.eqb c ":" then Continue (S p) has_separator
  else if Ascii.eqb c "." || Ascii.eqb c "," then Break (S p)
  else if negb has_separator then Continue p has_separator
  else Fail.

(** The loop itself, over the [n] components still to read: the
    components read, and either the value returned or the position the
    fraction is read from. *)
Fixpoint parse_hh_mm_ss (n : nat) (s : string) (p p_end : nat)
    (first has_separator : bool) : option (list Z * (bool + nat)) :=
  match n with
  | O => Some ([], inr p)
  | S n' =>
      v ← parse_digits s p 2 0;
      match after_digits s (p + 2) p_end first has_separator with
      | Return not_at_end => Some ([v], inl not_at_end)
      | Continue p' has_separator' =>
          '(vs, r) ← parse_hh_mm_ss n' s p' p_end false has_separator';
          Some (v :: vs, r)
      | Break p' => Some ([v], inr p')
      | Fail => None
      end
  end.

(** [parse_hh_mm_ss_ff] between the positions [p] and [p_end]:
    [HH[[:]MM[[:]SS]]], then after [.], [,] (or a third [:]) a fraction of
    which up to six digits are read and further digits skipped. The
    result is (hour, minute, second, microsecond), with whether the byte
    the parser stopped at is something else than the terminating NUL. *)
Definition parse_hh_mm_ss_ff (s : string) (p p_end : nat)
  : option (bool * (Z * Z * Z * Z)) :=
  '(vs, r) ← parse_hh_mm_ss 3 s p p_end true false;
  let h := nth 0 vs 0 in
  let mi := nth 1 vs 0 in
  let sec := nth 2 vs 0 in
  match r with
  | inl not_at_end => Some (not_at_end, (h, mi, sec, 0))
  | inr q =>
      let to_parse := Nat.min 6 (p_end - q)%nat in
      f ← parse_digits s q to_parse 0;
      let us := f * 10 ^ Z.of_nat (6 - to_parse)%nat in
      let q' := (q + to_parse + digit_run (PyStr.drop (q + to_parse) s))%nat in
      Some (negb (Ascii.eqb (byte_at s q') Ascii.zero), (h, mi, sec, us))
  end.

(** The position of the first [Z], [+] or [-] from [p] on; when there is
    none among the [S n] bytes looked at, the position after them. *)
Fixpoint find_tzinfo (s : string) (p : nat) (n : nat) : nat :=
  let c := byte_at s p in
  if Ascii.eqb c "Z" || Ascii.eqb c "+" || Ascii.eqb c "-" then p
  else match n with
       | O => S p
       | S n' => find_tzinfo s (S p) n'
       end.

(** [parse_isoformat_time] on the [len] bytes from [p] on: the time, and
    for an aware value the offset as whole seconds and microseconds.
    [Z] must be the last byte. *)
Definition parse_isoformat_time (s : string) (p len : nat)
  : option (Z * Z * Z * Z * option (Z * Z)) :=
  let p_end := (p + len)%nat in
  let tzinfo_pos := find_tzinfo s p (len - 1)%nat in
  match parse_hh_mm_ss_ff s p tzinfo_pos with
  | None => None
  | Some (not_at_end, t) =>
      if (tzinfo_pos =? p_end)%nat then
        if not_at_end then None else Some (t, None)
      else if Ascii.eqb (byte_at s tzinfo_pos) "Z" then
        if Ascii.eqb (byte_at s (S tzinfo_pos)) Ascii.zero
        then Some (t, Some (0, 0)) else None
      else
        let tzsign :=
          if Ascii.eqb (byte_at s tzinfo_pos) "-" then -1 else 1 in
        match parse_hh_mm_ss_ff s (S tzinfo_pos) p_end with
        | None => None
        | Some (tz_not_at_end, (th, tm, ts, tus)) =>
            if tz_not_at_end then None
            else Some (t, Some (tzsign * (th * 3600 + tm * 60 + ts),
                                tzsign * tus))
        end
  end.

(** [tzinfo_from_isoformat_results]: an offset of 0 whole seconds is UTC,
    whatever its microseconds; any other offset must lie strictly
    between -24 and 24 hours. *)
Definition tzinfo_from_isoformat_results (tz : option (Z * Z))
  : option (option Z) :=
  match tz with
  | None => Some None
  | Some (tzoffset, tz_useconds) =>
      if tzoffset =? 0 then Some (Some 0)
      else
        let off := tzoffset * 1000000 + tz_useconds in
        if valid_offset off then Some (Some off) else None
  end.

(** The number of bytes of the character that separates date and time,
    from its first byte. *)
Definition utf8_width (a : ascii) : nat :=
  let n := N_of_ascii a in
  if (n <? 128)%N then 1%nat
  else if (N.land n 240 =? 224)%N then 3%nat
  else if (N.land n 240 =? 240)%N then 4%nat
  else 2%nat.

(** [datetime.fromisoformat(date_string)]; [None] stands for the
    [ValueError] raised on a string that is not read, out-of-range
    fields included. A date alone gives midnight; after the date comes
    one separator character (any) and the time. *)
Definition fromisoformat (date_string : string) : option datetime :=
  let len := String.length date_string in
  separator_location ← find_isoformat_datetime_separator date_string;
  '(y, mo, d) ← parse_isoformat_date date_string separator_location;
  '(h, mi, s, us, tz) ←
     (if (separator_location <? len)%nat then
        let p := (separator_location
                  + utf8_width (byte_at date_string separator_location))%nat in
        parse_isoformat_time date_string p (len - p)%nat
      else Some (0, 0, 0, 0, @None (Z * Z)));
  tzinfo ← tzinfo_from_isoformat_results tz;
  if valid_fields y mo d h mi s us
  then Some (mk_datetime y mo d h mi s us tzinfo) else None.

(** The UTC offset suffix of [isoformat]: [+HH:MM[:SS[.ffffff]]]. *)
Definition format_offset (off : Z) : string :=
  let a := Z.abs off in
  let secs := a / 1000000 in
  let us := a mod 1000000 in
  (if off <? 0 then "-" else "+")
    ++ PyStr.zero_pad 2 (secs / 3600) ++ ":"
    ++ PyStr.zero_pad 2 (secs / 60 mod 60)
    ++ (if (secs mod 60 =? 0) && (us =? 0) then ""
        else ":" ++ PyStr.zero_pad 2 (secs mod 60)
             ++ (if us =? 0 then "" else "." ++ PyStr.zero_pad 6 us)).

(** [d.isoformat()]: [YYYY-MM-DDTHH:MM:SS], then [.ffffff] when the
    microsecond is not 0, then the UTC offset of an aware value. *)
Definition isoformat (d : datetime) : string :=
  PyStr.zero_pad 4 (year d) ++ "-" ++ PyStr.zero_pad 2 (month d) ++ "-"
    ++ PyStr.zero_pad 2 (day d) ++ "T"
    ++ PyStr.zero_pad 2 (hour d) ++ ":" ++ PyStr.zero_pad 2 (minute d) ++ ":"
    ++ PyStr.zero_pad 2 (second d)
    ++ (if microsecond d =? 0 then ""
        else "." ++ PyStr.zero_pad 6 (microsecond d))
    ++ match tzinfo d with None => "" | Some off => format_offset off end.

End Datetime.

Import Datetime.

(* ===================================================================== *)
(** ** bson [ObjectId] *)
(* ===================================================================== *)

Module Bson.

(** An [ObjectId] holds the bytes it was built from ([binary]). *)
Record ObjectId := mk_oid { binary : list N }.

#[global] Instance ObjectId_eq_dec : EqDecision ObjectId.
Proof. solve_decision. Defined.

(** [Py_ISSPACE] *)
Definition is_space (a : ascii) : bool :=
  let n := N_of_ascii a in
  (((9 <=? n) && (n <=? 13)) || (n =? 32))%N.

Definition hex_val (a : ascii) : option N :=
  let n := N_of_ascii a in
  (if (48 <=? n) && (n <=? 57) then Some (n - 48)
   else if (97 <=? n) && (n <=? 102) then Some (n - 87)
   else if (65 <=? n) && (n <=? 70) then Some (n - 55)
   else None)%N.

(** [bytes.fromhex(s)]: pairs of hexadecimal digits, ASCII whitespace
    between pairs skipped; [None] is its [ValueError]. *)
Fixpoint fromhex (s : string) : option (list N) :=
  match s with
  | EmptyString => Some []
  | String a s' =>
      if is_space a then fromhex s'
      else match hex_val a, s' with
           | Some hi, String b s'' =>
               match hex_val b with
               | Some lo => bs ← fromhex s''; Some ((16 * hi + lo)%N :: bs)
               | None => None
               end
           | _, _ => None
           end
  end.

(** [ObjectId(oid)] for a [str] argument: 24 characters that
    [bytes.fromhex] accepts; [None] is [InvalidId]. *)
Definition of_str (oid : string) : option ObjectId :=
  if (String.length oid =? 24)%nat then mk_oid <$> fromhex oid else None.

Definition hex_char (n : N) : ascii :=
  ascii_of_N (if (n <? 10)%N then 48 + n else 87 + n)%N.

Fixpoint hexlify (bs : list N) : string :=
  match bs with
  | [] => EmptyString
  | b :: bs' =>
      String (hex_char (b / 16)) (String (hex_char (b mod 16)) (hexlify bs'))
  end.

(** [str(oid)]: lower-case hexadecimal. *)
Definition to_str (o : ObjectId) : string := hexlify (binary o).

End Bson.

Import Bson.

(* ===================================================================== *)
(** ** Documents and pymongo collections *)
(* ===================================================================== *)

Module Mongo.

(** The values the handlers put into, and read from, documents. *)
Inductive value :=
| VNone
| VStr (s : string)
| VOid (o : ObjectId).

#[global] Instance value_eq_dec : EqDecision value.
Proof. solve_decision. Defined.

(** [str(v)] *)
Definition py_str (v : value) : string :=
  match v with
  | VNone => "None"
  | VStr s => s
  | VOid o => to_str o
  end.

(** A document is a Python [dict] with string keys; a collection keeps
    its documents in insertion order. *)
Abbreviation document := (gmap string value).
Abbreviation collection := (list (gmap string value)).

(** [bool(d)] of a [dict] *)
Definition dict_truthy (d : document) : bool := bool_decide (d ≠ ∅).

(** The query documents the handlers pass:
    [{}], [{f: v}], [{f: {"$lte": s}}], [{f: {"$gte": s}}],
    [{"$and": [...]}] and [{"$or": [...]}]. *)
Inductive query :=
| QAll
| QEq (field : string) (v : value)
| QLte (field : string) (s : string)
| QGte (field : string) (s : string)
| QAnd (qs : list query)
| QOr (qs : list query).

(** Whether a document matches a query. An equality with [None] also
    matches a document without the field; [$lte] and [$gte] with a string
    operand match string values only, which compare byte by byte. *)
Fixpoint matches (q : query) (d : document) : bool :=
  match q with
  | QAll => true
  | QEq f v =>
      match d !! f with
      | Some x => bool_decide (x = v)
      | None => bool_decide (v = VNone)
      end
  | QLte f s =>
      match d !! f with
      | Some (VStr x) => String.leb x s
      | _ => false
      end
  | QGte f s =>
      match d !! f with
      | Some (VStr x) => String.leb s x
      | _ => false
      end
  | QAnd qs => forallb (fun q' => matches q' d) qs
  | QOr qs => existsb (fun q' => matches q' d) qs
  end.

(** [list(c.find(q))] *)
Definition find (q : query) (c : collection) : collection :=
  List.filter (matches q) c.

(** [c.find_one(q)]: the first match, or [None]. *)
Definition find_one (q : query) (c : collection) : option document :=
  head (find q c).

(** [c.insert_one(doc)]. A document without [_id] gets a new [ObjectId]
    under that key, and it is the caller's [dict] that gets it: the
    first component is that [dict] after the call, the second the
    [inserted_id]. [None] is the [DuplicateKeyError] for an [_id] the
    collection already holds. *)
Definition insert_one (new_id : ObjectId) (doc : document) (c : collection)
  : option (document * value * collection) :=
  let doc' := match doc !! "_id" with
              | Some _ => doc
              | None => <["_id" := VOid new_id]> doc
              end in
  let inserted_id := default VNone (doc' !! "_id") in
  if existsb (matches (QEq "_id" inserted_id)) c then None
  else Some (doc', inserted_id, (c ++ [doc'])%list).

(** [c.update_one(q, {"$set": fields})]: the first match gets the fields
    of [fields], its other fields kept; returns [matched_count]. *)
Fixpoint update_one (q : query) (fields : document) (c : collection)
  : nat * collection :=
  match c with
  | [] => (O, [])
  | d :: c' =>
      if matches q d then (1%nat, (fields ∪ d) :: c')
      else let '(n, c'') := update_one q fields c' in (n, d :: c'')
  end.

(** [c.delete_one(q)]: the first match is removed; returns
    [deleted_count]. *)
Fixpoint delete_one (q : query) (c : collection) : nat * collection :=
  match c with
  | [] => (O, [])
  | d :: c' =>
      if matches q d then (1%nat, c')
      else let '(n, c'') := delete_one q c' in (n, d :: c'')
  end.

End Mongo.

Import Mongo.

(* ===================================================================== *)
(** ** The handlers' effects *)
(* ===================================================================== *)

(** The exceptions that can leave a handler. [HTTPException] is what the
    handlers raise themselves; a [TypeError] comes from comparing a naive
    with an aware [datetime], a [DuplicateKeyError] from the store. The
    [ValueError] of [fromisoformat] and the [InvalidId] of [ObjectId] never
    leave a handler: both are caught where they are raised. *)
Inductive exn :=
| HTTPException (status_code : Z) (detail : string)
| TypeError
| DuplicateKeyError.

Inductive result (A : Type) :=
| Ok (a : A)
| Raise (e : exn).
Arguments Ok {A} a.
Arguments Raise {A} e.

(** Modelled from the spec: the module [database], which provides the
    handles [teachers_collection] and [announcements_collection], is not
    among the sources; the spec has them as document collections with
    [find], [find_one], [insert_one], [update_one] and [delete_one], keyed
    by a unique identifier, and the handlers use them as pymongo
    collections (module [Mongo]). The world a request runs against holds
    the two collections; [clock] lists the successive readings of the
    server's local clock and [now_calls] counts the readings taken so far;
    [objectids] and [new_ids] do the same for the identifiers [ObjectId()]
    generates. *)
Record World := mk_world {
  teachers_collection : collection;
  announcements_collection : collection;
  clock : nat -> datetime;
  now_calls : nat;
  objectids : nat -> ObjectId;
  new_ids : nat
}.

Definition with_announcements (c : collection) (w : World) : World :=
  mk_world (teachers_collection w) c (clock w) (now_calls w)
           (objectids w) (new_ids w).

(** A handler is a computation over the world that returns or raises; what
    it did to the world before raising stays done. *)
Definition M (A : Type) : Type := World -> result A * World.

Definition ret {A} (a : A) : M A := fun w => (Ok a, w).

Definition raise {A} (e : exn) : M A := fun w => (Raise e, w).

Definition bind {A B} (m : M A) (k : A -> M B) : M B :=
  fun w =>
    match m w with
    | (Ok a, w') => k a w'
    | (Raise e, w') => (Raise e, w')
    end.

Notation "'let*' x ':=' m 'in' k" := (bind m (fun x => k))
  (at level 10, x pattern, m at level 100, k at level 200).

(** What the next [datetime.now()] returns: the next reading of the clock,
    as a naive value. *)
Definition reading (w : World) : datetime :=
  let t := clock w (now_calls w) in
  mk_datetime (year t) (month t) (day t) (hour t) (minute t)
              (second t) (microsecond t) None.

(** The world once that reading has been taken. *)
Definition tick (w : World) : World :=
  mk_world (teachers_collection w) (announcements_collection w)
           (clock w) (S (now_calls w)) (objectids w) (new_ids w).

(** [datetime.now()] *)
Definition datetime_now : M datetime :=
  fun w => (Ok (reading w), tick w).

Definition teachers_find_one (q : query) : M (option document) :=
  fun w => (Ok (find_one q (teachers_collection w)), w).

Definition announcements_find (q : query) : M collection :=
  fun w => (Ok (find q (announcements_collection w)), w).

Definition announcements_find_one (q : query) : M (option document) :=
  fun w => (Ok (find_one q (announcements_collection w)), w).

(** [announcements_collection.insert_one(doc)]: returns the caller's [dict]
    as the call leaves it, and the [inserted_id]. An identifier is taken
    from the generator only for a document that has no [_id]. *)
Definition announcements_insert_one (doc : document) : M (document * value) :=
  fun w =>
    let w' := match doc !! "_id" with
              | Some _ => w
              | None =>
                  mk_world (teachers_collection w) (announcements_collection w)
                    (clock w) (now_calls w) (objectids w) (S (new_ids w))
              end in
    match insert_one (objectids w (new_ids w)) doc
            (announcements_collection w) with
    | Some (doc', inserted_id, c) =>
        (Ok (doc', inserted_id), with_announcements c w')
    | None => (Raise DuplicateKeyError, w')
    end.

(** Returns [matched_count]. *)
Definition announcements_update_one (q : query) (fields : document) : M nat :=
  fun w =>
    let '(n, c) := update_one q fields (announcements_collection w) in
    (Ok n, with_announcements c w).

(** Returns [deleted_count]. *)
Definition announcements_delete_one (q : query) : M nat :=
  fun w =>
    let '(n, c) := delete_one q (announcements_collection w) in
    (Ok n, with_announcements c w).

(** A query parameter of type [Optional[str]] as a stored value. *)
Definition opt_value (o : option string) : value :=
  match o with
  | None => VNone
  | Some s => VStr s
  end.

(** [not teacher], for the result of a [find_one]. *)
Definition not_found (teacher : option document) : bool :=
  match teacher with
  | None => true
  | Some t => negb (dict_truthy t)
  end.

(* ===================================================================== *)
(** ** [routers/announcements.py] *)
(* ===================================================================== *)

(** [serialize_announcement(announcement)] for a [dict]: the [dict] is
    changed in place and returned. *)
Definition serialize_announcement (announcement : document) : document :=
  if dict_truthy announcement then
    match announcement !! "_id" with
    | Some _id => delete "_id" (<["id" := VStr (py_str _id)]> announcement)
    | None => announcement
    end
  else announcement.

(** The same call on the result of a [find_one], which may be [None]:
    [None] is falsy and comes back as it is. *)
Definition serialize_found (announcement : option document) : option document :=
  serialize_announcement <$> announcement.

(** The query of [get_active_announcements]. *)
Definition active_query (current_time : string) : query :=
  QAnd [ QOr [ QEq "start_date" VNone; QLte "start_date" current_time ];
         QGte "expiration_date" current_time ].

Definition get_active_announcements : M (list document) :=
  let* now := datetime_now in
  let current_time := isoformat now in
  let* announcements := announcements_find (active_query current_time) in
  ret (map serialize_announcement announcements).

Definition get_all_announcements (username : string) : M (list document) :=
  let* teacher := teachers_find_one (QEq "_id" (VStr username)) in
  if not_found teacher then raise (HTTPException 401 "Unauthorized") else
  let* announcements := announcements_find QAll in
  ret (map serialize_announcement announcements).

(** The expression [datetime.fromisoformat(s.replace('Z', '+00:00'))]. *)
Definition parse_date (s : string) : option datetime :=
  fromisoformat (PyStr.replace "Z" "+00:00" s).

(** The [try] block "Validate dates", which [create_announcement] and
    [update_announcement] both run, character for character the same.
    An [HTTPException] or [TypeError] raised inside the block is not a
    [ValueError] and leaves it. *)
Definition validate_dates
    (expiration_date : string) (start_date : option string) : M unit :=
  match parse_date expiration_date with
  | None => raise (HTTPException 400 "Invalid date format")
  | Some exp_date =>
      let* now := datetime_now in
      match le exp_date now with
      | None => raise TypeError
      | Some true =>
          raise (HTTPException 400 "Expiration date must be in the future")
      | Some false =>
          if PyStr.truthy start_date then
            match parse_date (default "" start_date) with
            | None => raise (HTTPException 400 "Invalid date format")
            | Some start_dt =>
                match ge start_dt exp_date with
                | None => raise TypeError
                | Some true =>
                    raise (HTTPException 400
                             "Start date must be before expiration date")
                | Some false => ret tt
                end
            end
          else ret tt
      end
  end.

(** The [dict] that [create_announcement] builds. *)
Definition new_announcement (message : string) (start_date : option string)
    (expiration_date username created_at : string) : document :=
  <["message" := VStr message]>
  (<["start_date" := opt_value start_date]>
  (<["expiration_date" := VStr expiration_date]>
  (<["created_by" := VStr username]>
  (<["created_at" := VStr created_at]> ∅)))).

Definition create_announcement
    (message expiration_date username : string) (start_date : option string)
  : M document :=
  let* teacher := teachers_find_one (QEq "_id" (VStr username)) in
  if not_found teacher then raise (HTTPException 401 "Unauthorized") else
  let* _ := validate_dates expiration_date start_date in
  let* now := datetime_now in
  let announcement :=
    new_announcement message start_date expiration_date username
      (isoformat now) in
  let* (announcement, inserted_id) := announcements_insert_one announcement in
  ret (<["id" := VStr (py_str inserted_id)]> announcement).

(** The fields of the [$set] of [update_announcement]. *)
Definition update_fields (message : string) (start_date : option string)
    (expiration_date username updated_at : string) : document :=
  <["message" := VStr message]>
  (<["start_date" := opt_value start_date]>
  (<["expiration_date" := VStr expiration_date]>
  (<["updated_by" := VStr username]>
  (<["updated_at" := VStr updated_at]> ∅)))).

Definition update_announcement
    (announcement_id message expiration_date username : string)
    (start_date : option string)
  : M (option document) :=
  let* teacher := teachers_find_one (QEq "_id" (VStr username)) in
  if not_found teacher then raise (HTTPException 401 "Unauthorized") else
  let* _ := validate_dates expiration_date start_date in
  match of_str announcement_id with
  | None => raise (HTTPException 400 "Invalid announcement ID")
  | Some obj_id =>
      let* now := datetime_now in
      let* matched_count :=
        announcements_update_one (QEq "_id" (VOid obj_id))
          (update_fields message start_date expiration_date username
             (isoformat now)) in
      if (matched_count =? 0)%nat
      then raise (HTTPException 404 "Announcement not found") else
      let* updated := announcements_find_one (QEq "_id" (VOid obj_id)) in
      ret (serialize_found updated)
  end.

Definition delete_announcement (announcement_id username : string)
  : M (gmap string string) :=
  let* teacher := teachers_find_one (QEq "_id" (VStr username)) in
  if not_found teacher then raise (HTTPException 401 "Unauthorized") else
  match of_str announcement_id with
  | None => raise (HTTPException 400 "Invalid announcement ID")
  | Some obj_id =>
      let* deleted_count :=
        announcements_delete_one (QEq "_id" (VOid obj_id)) in
      if (deleted_count =? 0)%nat
      then raise (HTTPException 404 "Announcement not found") else
      ret {[ "message" := "Announcement deleted successfully" ]}
  end.

(* ===================================================================== *)
(** ** Vocabulary of the statements *)
(* ===================================================================== *)

(** [username] resolves to a record of the teachers collection. *)
Definition known_teacher (username : string) (w : World) : Prop :=
  is_Some (find_one (QEq "_id" (VStr username)) (teachers_collection w)).

(** No two documents of a collection share an [_id] (the store's unique
    index on [_id]). *)
Definition unique_ids (c : collection) : Prop :=
  NoDup (map (fun d : document => d !! "_id") c).

(** A request that fails with [HTTPException(status, detail)] and leaves
    both collections as they were. *)
Definition fails_with {A} (out : result A * World) (w : World)
    (status : Z) (detail : string) : Prop :=
  fst out = Raise (HTTPException status detail)
  /\ announcements_collection (snd out) = announcements_collection w
  /\ teachers_collection (snd out) = teachers_collection w.

(** The document a successful [create] stores when it starts in [w]: the
    [dict] it built, stamped with the second reading of the clock, under
    the next generated identifier. *)
Definition created_document (message : string) (start_date : option string)
    (expiration_date username : string) (w : World) : document :=
  <["_id" := VOid (objectids w (new_ids w))]>
    (new_announcement message start_date expiration_date username
       (isoformat (reading (tick w)))).

(** The active predicate in the spec's words: an announcement is active at
    time [T] iff ([start_date] is absent or [start_date] <= [T]) and
    [expiration_date] >= [T], the dates being the timestamps the stored
    strings denote and the comparisons those of timestamps. *)
Definition is_active_spec (a : document) (T : datetime) : bool :=
  match a !! "start_date" with
  | None | Some VNone => true
  | Some (VStr s) =>
      match parse_date s with
      | Some start_dt =>
          match le start_dt T with Some b => b | None => false end
      | None => false
      end
  | Some (VOid _) => false
  end
  && match a !! "expiration_date" with
     | Some (VStr s) =>
         match parse_date s with
         | Some exp_date =>
             match ge exp_date T with Some b => b | None => false end
         | None => false
         end
     | _ => false
     end.

(** What the query of [get_active_announcements] tests on a document,
    spelled out: the stored strings are compared with the current time's
    string, byte by byte. *)
Definition selected_by_strings (current_time : string) (d : document) : bool :=
  match d !! "start_date" with
  | None | Some VNone => true
  | Some (VStr s) => String.leb s current_time
  | Some (VOid _) => false
  end
  && match d !! "expiration_date" with
     | Some (VStr e) => String.leb current_time e
     | _ => false
     end.

(** The fields of [d] are in the ranges the [datetime] constructor
    accepts. *)
Definition valid (d : datetime) : Prop :=
  valid_fields (year d) (month d) (day d) (hour d) (minute d) (second d)
    (microsecond d) = true.

(** [s] is written the way [isoformat] writes the naive timestamp [dt]. *)
Definition canonical (s : string) (dt : datetime) : Prop :=
  parse_date s = Some dt /\ tzinfo dt = None /\ valid dt /\ isoformat dt = s.

(** The dates of a document, where they are strings, are canonical. *)
Definition canonical_dates (d : document) : Prop :=
  (forall s, d !! "start_date" = Some (VStr s) -> exists dt, canonical s dt)
  /\ (forall s, d !! "expiration_date" = Some (VStr s) ->
      exists dt, canonical s dt).

(** Both collections of [w'] are those of [w]. *)
Definition same_collections (w w' : World) : Prop :=
  announcements_collection w' = announcements_collection w
  /\ teachers_collection w' = teachers_collection w.

(** What the block "Validate dates" can raise. *)
Definition date_errors : list exn :=
  [ HTTPException 400 "Invalid date format";
    HTTPException 400 "Expiration date must be in the future";
    HTTPException 400 "Start date must be before expiration date";
    TypeError ]%list.

(** What each handler that can fail can raise. *)
Definition create_errors : list exn :=
  (HTTPException 401 "Unauthorized" :: DuplicateKeyError :: date_errors)%list.

Definition update_errors : list exn :=
  (HTTPException 401 "Unauthorized"
   :: HTTPException 400 "Invalid announcement ID"
   :: HTTPException 404 "Announcement not found" :: date_errors)%list.

Definition delete_errors : list exn :=
  [ HTTPException 401 "Unauthorized";
    HTTPException 400 "Invalid announcement ID";
    HTTPException 404 "Announcement not found" ]%list.

(** The exception of an outcome, if it is one. *)
Definition raised {A} (out : result A * World) : option exn :=
  match fst out with
  | Ok _ => None
  | Raise e => Some e
  end.

(** An identifier as [ObjectId()] generates them: twelve bytes. *)
Definition generated (o : ObjectId) : Prop :=
  length (binary o) = 12%nat /\ Forall (fun b => (b < 256)%N) (binary o).

(** The confirmation of [delete_announcement]. *)
Definition deleted_confirmation : gmap string string :=
  {[ "message" := "Announcement deleted successfully" ]}.

(** The fields that the [$set] of [update] names. *)
Definition updated_keys : list string :=
  ["message"; "start_date"; "expiration_date"; "updated_by"; "updated_at"]%list.

(* ===================================================================== *)
(** ** Sample data *)
(* ===================================================================== *)

Module Sample.

Definition morning : datetime := mk_datetime 2026 11 3 9 0 0 0 None.
Definition later : datetime := mk_datetime 2026 11 3 10 0 0 0 None.

Definition oid : ObjectId := mk_oid [1; 2; 3; 4; 5; 6; 7; 8; 9; 10; 11; 12]%N.
Definition oid_str : string := "0102030405060708090a0b0c".

(** One teacher, no announcement; the clock reads 09:00 twice, then
    10:00. *)
Definition school : World :=
  mk_world [ {[ "_id" := VStr "mchen" ]} ] []
    (fun n => match n with O | S O => morning | _ => later end) 0
    (fun _ => oid) 0.

Definition exam : document :=
  <["_id" := VOid oid]>
  (<["message" := VStr "Exam"]>
  (<["start_date" := VNone]>
  (<["expiration_date" := VStr "2026-12-24T00:00:00"]>
  (<["created_by" := VStr "mchen"]>
  (<["created_at" := VStr "2026-11-03T09:00:00"]> ∅))))).

(** The same school with one announcement stored. *)
Definition school_with_exam : World := with_announcements [exam] school.

End Sample.

(* ===================================================================== *)
(** ** The store *)
(* ===================================================================== *)

Section Store.

Implicit Types (q : query) (d : document) (c : collection).

Lemma find_one_matches q c d :
  find_one q c = Some d -> matches q d = true /\ In d c.
Proof.
  unfold find_one, find. intros H.
  assert (Hin : In d (List.filter (matches q) c)).
  { destruct (List.filter (matches q) c); simpl in H; [discriminate|].
    injection H as ->. now left. }
  apply filter_In in Hin. tauto.
Qed.

(** An equality query on a value other than [None] matches exactly the
    documents that hold the value. *)
Lemma matches_eq_lookup f v d :
  v <> VNone -> matches (QEq f v) d = true <-> d !! f = Some v.
Proof.
  intros Hv. simpl. destruct (d !! f) as [x|].
  - rewrite bool_decide_eq_true. split; congruence.
  - rewrite bool_decide_eq_true. split; [tauto | discriminate].
Qed.

Lemma matches_truthy f v d :
  v <> VNone -> matches (QEq f v) d = true -> dict_truthy d = true.
Proof.
  intros Hv Hm. apply matches_eq_lookup in Hm; [|exact Hv].
  unfold dict_truthy. apply bool_decide_eq_true. intros ->.
  rewrite lookup_empty in Hm. discriminate.
Qed.

Lemma delete_one_count q c :
  fst (delete_one q c) = if existsb (matches q) c then 1%nat else 0%nat.
Proof.
  induction c as [|d c IH]; simpl; [reflexivity|].
  destruct (matches q d); simpl; [reflexivity|].
  destruct (delete_one q c). exact IH.
Qed.

(** Under unique identifiers, nothing matches an [_id] once
    [delete_one] has removed a document for it. *)
Lemma delete_one_gone v c :
  v <> VNone -> unique_ids c ->
  existsb (matches (QEq "_id" v)) c = true ->
  existsb (matches (QEq "_id" v)) (snd (delete_one (QEq "_id" v) c)) = false.
Proof.
  intros Hv. unfold unique_ids.
  induction c as [|d c IH]; intros Hnd Hex; [discriminate|].
  cbn [delete_one]. inversion Hnd as [|x l Hnotin Hnd']; subst.
  destruct (matches (QEq "_id" v) d) eqn:Hm.
  - cbn [snd]. apply matches_eq_lookup in Hm; [|exact Hv].
    destruct (existsb (matches (QEq "_id" v)) c) eqn:Hc; [|reflexivity].
    exfalso. apply Hnotin. apply existsb_exists in Hc as (d' & Hin & Hm').
    apply matches_eq_lookup in Hm'; [|exact Hv].
    apply list_elem_of_In, in_map_iff. exists d'. split; [congruence | exact Hin].
  - cbn [existsb] in Hex. rewrite Hm in Hex. cbn [orb] in Hex.
    specialize (IH Hnd' Hex).
    destruct (delete_one (QEq "_id" v) c) as [n c'] eqn:Hd.
    cbn [snd] in *. cbn [existsb]. rewrite Hm, IH. reflexivity.
Qed.

End Store.

(* ===================================================================== *)
(** ** Authentication *)
(* ===================================================================== *)

Section Auth.

Context {A : Type} (k : M A) (username : string) (w : World).

Let guarded : M A :=
  let* teacher := teachers_find_one (QEq "_id" (VStr username)) in
  if not_found teacher then raise (HTTPException 401 "Unauthorized") else k.

Lemma auth_pass : known_teacher username w -> guarded w = k w.
Proof.
  intros [t Ht]. unfold guarded, bind, teachers_find_one. rewrite Ht.
  apply find_one_matches in Ht as [Hm _].
  apply matches_truthy in Hm; [|discriminate].
  unfold not_found. rewrite Hm. reflexivity.
Qed.

Lemma auth_fail :
  ~ known_teacher username w ->
  guarded w = (Raise (HTTPException 401 "Unauthorized"), w).
Proof.
  intros Hn. unfold guarded, bind, teachers_find_one.
  destruct (find_one _ _) as [t|] eqn:Ht.
  - exfalso. apply Hn. exists t. exact Ht.
  - reflexivity.
Qed.

End Auth.

(* ===================================================================== *)
(** ** Date validation *)
(* ===================================================================== *)

Section Validation.

Variables (expiration_date : string) (start_date : option string) (w : World).

(** Validation takes at most one reading of the clock and touches
    nothing else. *)
Lemma validate_dates_world :
  snd (validate_dates expiration_date start_date w) = w
  \/ snd (validate_dates expiration_date start_date w) = tick w.
Proof.
  unfold validate_dates, bind, datetime_now, raise, ret.
  destruct (parse_date expiration_date) as [e|]; [|now left].
  destruct (le e (reading w)) as [[|]|]; try now right.
  destruct (PyStr.truthy start_date); [|now right].
  destruct (parse_date (default "" start_date)) as [s|]; [|now right].
  destruct (ge s e) as [[|]|]; now right.
Qed.

Lemma validate_dates_collections :
  announcements_collection (snd (validate_dates expiration_date start_date w))
    = announcements_collection w
  /\ teachers_collection (snd (validate_dates expiration_date start_date w))
    = teachers_collection w.
Proof.
  destruct validate_dates_world as [-> | ->]; split; reflexivity.
Qed.

(** When validation passes, exactly one reading was taken. *)
Lemma validate_dates_ok w' :
  validate_dates expiration_date start_date w = (Ok tt, w') -> w' = tick w.
Proof.
  unfold validate_dates, bind, datetime_now, raise, ret.
  destruct (parse_date expiration_date) as [e|]; [|discriminate].
  destruct (le e (reading w)) as [[|]|]; try discriminate.
  destruct (PyStr.truthy start_date); [|congruence].
  destruct (parse_date (default "" start_date)) as [s|]; [|discriminate].
  destruct (ge s e) as [[|]|]; try discriminate. congruence.
Qed.


Lemma validate_dates_expired exp_date :
  parse_date expiration_date = Some exp_date ->
  le exp_date (reading w) = Some true ->
  validate_dates expiration_date start_date w
    = (Raise (HTTPException 400 "Expiration date must be in the future"),
       tick w).
Proof.
  intros H Hle. unfold validate_dates, bind, datetime_now.
  rewrite H, Hle. reflexivity.
Qed.

Lemma validate_dates_incomparable exp_date :
  parse_date expiration_date = Some exp_date ->
  le exp_date (reading w) = None ->
  validate_dates expiration_date start_date w = (Raise TypeError, tick w).
Proof.
  intros H Hle. unfold validate_dates, bind, datetime_now.
  rewrite H, Hle. reflexivity.
Qed.


(** The clock reading is naive, so an aware expiration date does not
    compare with it. *)
Lemma le_reading_aware exp_date :
  tzinfo exp_date <> None -> le exp_date (reading w) = None.
Proof.
  intros Htz. unfold le, cmp. cbn [reading tzinfo].
  destruct (tzinfo exp_date); [reflexivity | congruence].
Qed.


(** A failed validation is a failed request that persisted nothing. *)
Lemma validation_fails_with {A} (out : result A * World) status detail w' :
  validate_dates expiration_date start_date w
    = (Raise (HTTPException status detail), w') ->
  out = (Raise (HTTPException status detail), w') ->
  fails_with out w status detail.
Proof.
  intros Hv ->. pose proof validate_dates_collections as [Ha Ht].
  rewrite Hv in Ha, Ht. repeat split; assumption.
Qed.

Variables (username : string).
Hypothesis Hknown : known_teacher username w.

Lemma create_validation_raises message e w' :
  validate_dates expiration_date start_date w = (Raise e, w') ->
  create_announcement message expiration_date username start_date w
    = (Raise e, w').
Proof.
  intros Hv. unfold create_announcement. rewrite auth_pass by exact Hknown.
  unfold bind at 1. rewrite Hv. reflexivity.
Qed.

Lemma update_validation_raises announcement_id message e w' :
  validate_dates expiration_date start_date w = (Raise e, w') ->
  update_announcement announcement_id message expiration_date username
    start_date w = (Raise e, w').
Proof.
  intros Hv. unfold update_announcement. rewrite auth_pass by exact Hknown.
  unfold bind at 1. rewrite Hv. reflexivity.
Qed.

Lemma update_malformed_id announcement_id message w' :
  validate_dates expiration_date start_date w = (Ok tt, w') ->
  of_str announcement_id = None ->
  update_announcement announcement_id message expiration_date username
    start_date w
    = (Raise (HTTPException 400 "Invalid announcement ID"), w').
Proof.
  intros Hv Hid. unfold update_announcement. rewrite auth_pass by exact Hknown.
  unfold bind at 1. rewrite Hv, Hid. reflexivity.
Qed.

End Validation.

(* ===================================================================== *)
(** ** What a successful request did *)
(* ===================================================================== *)

Section Create.

Variables (message expiration_date username : string)
          (start_date : option string) (w : World).

Lemma new_announcement_no_id created_at :
  new_announcement message start_date expiration_date username created_at
    !! "_id" = None.
Proof.
  unfold new_announcement.
  rewrite !lookup_insert_ne by discriminate. apply lookup_empty.
Qed.

(** A [create] that returns has passed authentication and validation,
    found the generated identifier free, appended
    [created_document] to the collection and returned it with [id]
    added. *)
Lemma create_announcement_ok r w' :
  create_announcement message expiration_date username start_date w
    = (Ok r, w') ->
  let stored :=
    created_document message start_date expiration_date username w in
  known_teacher username w
  /\ validate_dates expiration_date start_date w = (Ok tt, tick w)
  /\ announcements_collection w'
       = (announcements_collection w ++ [stored])%list
  /\ teachers_collection w' = teachers_collection w
  /\ r = <["id" := VStr (to_str (objectids w (new_ids w)))]> stored.
Proof.
  intros H stored.
  assert (Hk : known_teacher username w).
  { destruct (find_one (QEq "_id" (VStr username)) (teachers_collection w))
      as [t|] eqn:Ht; [exists t; exact Ht|].
    exfalso. unfold create_announcement in H. rewrite auth_fail in H.
    - discriminate.
    - intros [t Ht']. congruence. }
  unfold create_announcement in H. rewrite auth_pass in H by exact Hk.
  unfold bind at 1 in H.
  destruct (validate_dates expiration_date start_date w) as [[[]|e] w1] eqn:Hv;
    [|discriminate].
  pose proof (validate_dates_ok _ _ _ _ Hv) as ->.
  unfold bind, datetime_now, announcements_insert_one, insert_one, ret in H.
  rewrite new_announcement_no_id in H.
  rewrite lookup_insert_eq in H. cbn [default] in H.
  change (<["_id" := _]> (new_announcement _ _ _ _ _)) with stored in H.
  cbn [tick announcements_collection objectids new_ids] in H.
  destruct (existsb _ (announcements_collection w)); [discriminate|].
  injection H as <- <-. repeat split; try reflexivity. exact Hk.
Qed.

End Create.

Section Update.

Implicit Types (q : query) (d : document) (c : collection).

(** [update_one] that matched rewrote the first document matching the
    query, in place. *)
Lemma update_one_matched q fields c :
  fst (update_one q fields c) <> 0%nat ->
  exists pre d post,
    c = (pre ++ d :: post)%list
    /\ matches q d = true
    /\ Forall (fun x => matches q x = false) pre
    /\ snd (update_one q fields c) = (pre ++ (fields ∪ d) :: post)%list.
Proof.
  induction c as [|x c IH]; cbn [update_one]; [intros H; now elim H|].
  destruct (matches q x) eqn:Hx.
  - intros _. exists [], x, c. repeat split; [exact Hx | constructor].
  - destruct (update_one q fields c) as [n c'] eqn:Hu. cbn [fst snd] in *.
    intros Hn. destruct (IH Hn) as (pre & d & post & -> & Hd & Hpre & ->).
    exists (x :: pre), d, post. repeat split; [exact Hd|].
    constructor; assumption.
Qed.

Lemma find_one_first q pre d post :
  Forall (fun x => matches q x = false) pre ->
  matches q d = true ->
  find_one q (pre ++ d :: post) = Some d.
Proof.
  intros Hpre Hd. unfold find_one, find.
  induction Hpre as [|x pre Hx _ IH]; cbn [app List.filter].
  - rewrite Hd. reflexivity.
  - rewrite Hx. exact IH.
Qed.

Variables (message expiration_date username updated_at : string)
          (start_date : option string).

Let fields :=
  update_fields message start_date expiration_date username updated_at.

(** The [$set] leaves every field it does not name as it was. *)
Lemma update_fields_frame d k :
  ~ In k updated_keys -> (fields ∪ d) !! k = d !! k.
Proof.
  intros Hk. apply lookup_union_r. unfold fields, update_fields.
  unfold updated_keys in Hk. cbn [In] in Hk.
  rewrite !lookup_insert_ne by (intros <-; tauto). apply lookup_empty.
Qed.

(** And it writes the five fields it names. *)
Lemma update_fields_written d :
  (fields ∪ d) !! "message" = Some (VStr message)
  /\ (fields ∪ d) !! "start_date" = Some (opt_value start_date)
  /\ (fields ∪ d) !! "expiration_date" = Some (VStr expiration_date)
  /\ (fields ∪ d) !! "updated_by" = Some (VStr username)
  /\ (fields ∪ d) !! "updated_at" = Some (VStr updated_at).
Proof.
  unfold fields, update_fields.
  repeat split; apply lookup_union_Some_l;
    repeat (first [ apply lookup_insert_eq
                  | rewrite lookup_insert_ne by discriminate ]).
Qed.

End Update.

(** An [update] that returns has passed authentication and validation,
    parsed the identifier, and rewritten in place the first document that
    carries it; what it returns is that document as the store now holds
    it, serialized. *)
Lemma update_announcement_ok
    (announcement_id message expiration_date username : string)
    (start_date : option string) (w : World) r w' :
  update_announcement announcement_id message expiration_date username
    start_date w = (Ok r, w') ->
  exists obj_id pre d post,
    let d' := update_fields message start_date expiration_date username
                (isoformat (reading (tick w))) ∪ d in
    known_teacher username w
    /\ validate_dates expiration_date start_date w = (Ok tt, tick w)
    /\ of_str announcement_id = Some obj_id
    /\ announcements_collection w = (pre ++ d :: post)%list
    /\ d !! "_id" = Some (VOid obj_id)
    /\ Forall (fun x : document => x !! "_id" <> Some (VOid obj_id)) pre
    /\ announcements_collection w' = (pre ++ d' :: post)%list
    /\ teachers_collection w' = teachers_collection w
    /\ find_one (QEq "_id" (VOid obj_id)) (announcements_collection w') = Some d'
    /\ r = Some (serialize_announcement d').
Proof.
  intros H.
  assert (Hk : known_teacher username w).
  { destruct (find_one (QEq "_id" (VStr username)) (teachers_collection w))
      as [t|] eqn:Ht; [exists t; exact Ht|].
    exfalso. unfold update_announcement in H. rewrite auth_fail in H.
    - discriminate.
    - intros [t Ht']. congruence. }
  unfold update_announcement in H. rewrite auth_pass in H by exact Hk.
  unfold bind at 1 in H.
  destruct (validate_dates expiration_date start_date w) as [[[]|e] w1] eqn:Hv;
    [|discriminate].
  pose proof (validate_dates_ok _ _ _ _ Hv) as ->.
  destruct (of_str announcement_id) as [obj_id|] eqn:Hid; [|discriminate].
  unfold bind, datetime_now, announcements_update_one, announcements_find_one,
    raise, ret in H.
  cbn [tick announcements_collection] in H.
  set (q := QEq "_id" (VOid obj_id)) in *.
  set (fields := update_fields _ _ _ _ _) in *.
  pose proof (update_one_matched q fields (announcements_collection w)) as Hm.
  destruct (update_one q fields (announcements_collection w)) as [n c] eqn:Hu.
  cbn [fst snd] in Hm.
  destruct (n =? 0)%nat eqn:Hn; [discriminate|].
  apply Nat.eqb_neq in Hn.
  destruct (Hm Hn) as (pre & d & post & Hc & Hd & Hpre & ->).
  assert (Hid_d : d !! "_id" = Some (VOid obj_id)).
  { apply matches_eq_lookup in Hd; [exact Hd | discriminate]. }
  assert (Hd' : matches q (fields ∪ d) = true).
  { apply matches_eq_lookup; [discriminate|].
    subst fields. rewrite update_fields_frame; [exact Hid_d|].
    cbn. intuition discriminate. }
  cbn [with_announcements announcements_collection] in H.
  rewrite (find_one_first q _ _ _ Hpre Hd') in H.
  injection H as <- <-.
  exists obj_id, pre, d, post. cbn zeta.
  repeat split; try assumption; try reflexivity.
  - eapply Forall_impl; [exact Hpre|]. intros x Hx Hx'.
    apply (matches_eq_lookup "_id" (VOid obj_id)) in Hx'; [|discriminate].
    fold q in Hx'. congruence.
  - cbn [with_announcements announcements_collection].
    apply find_one_first; assumption.
Qed.

(* ===================================================================== *)
(** ** Facts about the sample data *)
(* ===================================================================== *)

Lemma mchen_known : known_teacher "mchen" Sample.school.
Proof. eexists. reflexivity. Defined.

Lemma mchen_known_exam : known_teacher "mchen" Sample.school_with_exam.
Proof. eexists. reflexivity. Defined.

Lemma nobody_unknown : ~ known_teacher "nobody" Sample.school.
Proof. intros [t Ht]. discriminate Ht. Defined.

(* ===================================================================== *)
(** ** Claims *)
(* ===================================================================== *)

(** C3. When the username resolves to no teacher record, [update], [delete],
    [create] and [list_all] each fail with [HTTPException(401,
    "Unauthorized")], whatever the other arguments are, and hand back the
    world exactly as they found it: no clock reading was taken for a date
    validation, no identifier was parsed, nothing was written. *)
Theorem unknown_username_unauthorized (username : string) (w : World) :
  ~ known_teacher username w ->
  (forall announcement_id message expiration_date start_date,
      update_announcement announcement_id message expiration_date username
        start_date w = (Raise (HTTPException 401 "Unauthorized"), w))
  /\ (forall announcement_id,
      delete_announcement announcement_id username w
        = (Raise (HTTPException 401 "Unauthorized"), w))
  /\ (forall message expiration_date start_date,
      create_announcement message expiration_date username start_date w
        = (Raise (HTTPException 401 "Unauthorized"), w))
  /\ get_all_announcements username w
       = (Raise (HTTPException 401 "Unauthorized"), w).
Proof.
  intros Hn. repeat split; intros.
  - unfold update_announcement. now rewrite auth_fail.
  - unfold delete_announcement. now rewrite auth_fail.
  - unfold create_announcement. now rewrite auth_fail.
  - unfold get_all_announcements. now rewrite auth_fail.
Qed.

Lemma unknown_username_unauthorized_witness :
  update_announcement "not-an-id" "Exam" "yesterday" "nobody" (Some "today")
    Sample.school = (Raise (HTTPException 401 "Unauthorized"), Sample.school)
  /\ delete_announcement "not-an-id" "nobody" Sample.school
     = (Raise (HTTPException 401 "Unauthorized"), Sample.school).
Proof.
  destruct (unknown_username_unauthorized "nobody" Sample.school
              nobody_unknown) as (Hu & Hd & _).
  split; [apply Hu | apply Hd].
Defined.



(** C7. For a known teacher and a well-formed [announcement_id], [delete]
    fails with [HTTPException(404, "Announcement not found")] exactly when
    [delete_one] deleted no document; otherwise it returns the confirmation
    [{"message": "Announcement deleted successfully"}] and nothing else,
    the collection being what [delete_one] left. In a collection with
    unique identifiers, deleting the same identifier again then fails
    with the 404. *)
Theorem delete_not_found_iff
    (announcement_id username : string) (obj_id : ObjectId) (w : World) :
  known_teacher username w ->
  of_str announcement_id = Some obj_id ->
  let deleted :=
    delete_one (QEq "_id" (VOid obj_id)) (announcements_collection w) in
  let out := delete_announcement announcement_id username w in
  (fst out = Raise (HTTPException 404 "Announcement not found")
     <-> fst deleted = 0%nat)
  /\ (fst deleted <> 0%nat ->
      fst out = Ok {[ "message" := "Announcement deleted successfully" ]})
  /\ announcements_collection (snd out) = snd deleted
  /\ (unique_ids (announcements_collection w) ->
      fst deleted <> 0%nat ->
      fst (delete_announcement announcement_id username (snd out))
        = Raise (HTTPException 404 "Announcement not found")).
Proof.
  intros Hk Hid deleted out.
  assert (Hout : out =
    let '(n, c) := deleted in
    if (n =? 0)%nat
    then (Raise (HTTPException 404 "Announcement not found"),
          with_announcements c w)
    else (Ok {[ "message" := "Announcement deleted successfully" ]},
          with_announcements c w)).
  { subst out deleted. unfold delete_announcement.
    rewrite auth_pass by exact Hk. rewrite Hid.
    unfold bind, announcements_delete_one, raise, ret.
    destruct (delete_one _ _) as [n c]. destruct (n =? 0)%nat; reflexivity. }
  pose proof (delete_one_count (QEq "_id" (VOid obj_id))
                (announcements_collection w)) as Hcount.
  fold deleted in Hcount.
  destruct deleted as [n c] eqn:Hdel. cbn [fst snd] in *.
  destruct (existsb _ (announcements_collection w)) eqn:Hex; subst n;
    rewrite Hout; cbn [Nat.eqb fst snd with_announcements announcements_collection].
  - repeat split; try discriminate; try reflexivity.
    + intros Hu _.
      assert (Hk' : known_teacher username (with_announcements c w)) by exact Hk.
      unfold delete_announcement. rewrite auth_pass by exact Hk'. rewrite Hid.
      unfold bind, announcements_delete_one, raise, ret.
      cbn [announcements_collection with_announcements].
      pose proof (delete_one_count (QEq "_id" (VOid obj_id)) c) as Hc2.
      pose proof (delete_one_gone (VOid obj_id) (announcements_collection w)
                    ltac:(discriminate) Hu Hex) as Hgone.
      fold deleted in Hgone. rewrite Hdel in Hgone. cbn [snd] in Hgone.
      rewrite Hgone in Hc2.
      destruct (delete_one _ c) as [n' c']. cbn [fst] in Hc2. subst n'.
      reflexivity.
  - repeat split; try reflexivity; intros; congruence.
Qed.

Lemma delete_not_found_iff_witness :
  fst (delete_announcement Sample.oid_str "mchen" Sample.school_with_exam)
    = Ok {[ "message" := "Announcement deleted successfully" ]}
  /\ fst (delete_announcement Sample.oid_str "mchen"
            (snd (delete_announcement Sample.oid_str "mchen"
                    Sample.school_with_exam)))
     = Raise (HTTPException 404 "Announcement not found").
Proof.
  destruct (delete_not_found_iff Sample.oid_str "mchen" Sample.oid
              Sample.school_with_exam mchen_known_exam eq_refl)
    as (_ & Hok & _ & Hagain).
  split.
  - apply Hok. vm_compute. discriminate.
  - apply Hagain.
    + vm_compute. repeat constructor; intros H; inversion H.
    + vm_compute. discriminate.
Defined.



(** C9. An [update] that returns has rewritten one stored document in
    place, the first one carrying the identifier: [message], [start_date],
    [expiration_date], [updated_by] and [updated_at] hold the request's
    values (the last one the clock read after validation), every other
    field of the document, [_id], [created_by] and [created_at] among
    them, is as before, and every other document of the collection is
    untouched. What is returned is the document as the store holds it
    after the update, read back and serialized. *)
Theorem update_overwrites_exactly
    (announcement_id message expiration_date username : string)
    (start_date : option string) (w : World)
    (r : option document) (w' : World) :
  update_announcement announcement_id message expiration_date username
    start_date w = (Ok r, w') ->
  exists obj_id pre d post d',
    of_str announcement_id = Some obj_id
    /\ announcements_collection w = (pre ++ d :: post)%list
    /\ d !! "_id" = Some (VOid obj_id)
    /\ Forall (fun x : document => x !! "_id" <> Some (VOid obj_id)) pre
    /\ announcements_collection w' = (pre ++ d' :: post)%list
    /\ d' !! "message" = Some (VStr message)
    /\ d' !! "start_date" = Some (opt_value start_date)
    /\ d' !! "expiration_date" = Some (VStr expiration_date)
    /\ d' !! "updated_by" = Some (VStr username)
    /\ d' !! "updated_at" = Some (VStr (isoformat (reading (tick w))))
    /\ (forall k, ~ In k updated_keys -> d' !! k = d !! k)
    /\ d' !! "_id" = d !! "_id"
    /\ d' !! "created_by" = d !! "created_by"
    /\ d' !! "created_at" = d !! "created_at"
    /\ find_one (QEq "_id" (VOid obj_id)) (announcements_collection w')
         = Some d'
    /\ r = Some (serialize_announcement d').
Proof.
  intros H.
  destruct (update_announcement_ok _ _ _ _ _ _ _ _ H)
    as (obj_id & pre & d & post & _ & _ & Hid & Hc & Hd & Hpre & Hc' & _
        & Hfind & Hr).
  exists obj_id, pre, d, post.
  eexists. split; [exact Hid|]. split; [exact Hc|]. split; [exact Hd|].
  split; [exact Hpre|]. split; [exact Hc'|].
  pose proof (update_fields_written message expiration_date username
                (isoformat (reading (tick w))) start_date d)
    as (H1 & H2 & H3 & H4 & H5).
  pose proof (update_fields_frame message expiration_date username
                (isoformat (reading (tick w))) start_date d) as Hframe.
  repeat split; try assumption;
    apply Hframe; cbn; intuition discriminate.
Qed.

Lemma update_overwrites_exactly_witness :
  exists d',
    fst (update_announcement Sample.oid_str "Exam moved" "2026-12-25T00:00:00"
           "mchen" None Sample.school_with_exam)
      = Ok (Some (serialize_announcement d'))
    /\ d' !! "message" = Some (VStr "Exam moved")
    /\ d' !! "created_at" = Sample.exam !! "created_at".
Proof.
  destruct (update_announcement Sample.oid_str "Exam moved"
              "2026-12-25T00:00:00" "mchen" None Sample.school_with_exam)
    as [[r|e] w'] eqn:H.
  - destruct (update_overwrites_exactly _ _ _ _ _ _ _ _ H)
      as (obj_id & pre & d & post & d' & _ & Hc & _ & _ & _ & Hm & _ & _ & _
          & _ & _ & _ & _ & Hcreated & _ & Hr).
    exists d'. cbn [fst]. rewrite Hr, Hm, Hcreated.
    repeat split.
    destruct pre as [|x pre]; [|destruct pre; discriminate Hc].
    injection Hc as <- _. reflexivity.
  - vm_compute in H. discriminate H.
Defined.





(** C2, at the input of the spec's scenario. The expiration date
    [2000-01-01T00:00:00Z] parses, after the [Z] is replaced, to an aware
    timestamp; comparing it with the naive clock reading raises
    [TypeError], which is not an [HTTPException]. *)
Theorem create_utc_expiration_raises_type_error :
  known_teacher "mchen" Sample.school
  /\ parse_date "2000-01-01T00:00:00Z"
     = Some (mk_datetime 2000 1 1 0 0 0 0 (Some 0))
  /\ create_announcement "Exam" "2000-01-01T00:00:00Z" "mchen" None
       Sample.school = (Raise TypeError, tick Sample.school).
Proof.
  split; [exact mchen_known|]. split; reflexivity.
Qed.

(** C5, at a [create] that returns. The returned announcement has its
    [id], and it also still has the [_id] that [insert_one] put into the
    [dict]. *)
Theorem create_returns_store_id :
  exists r w',
    create_announcement "Exam" "2026-12-24T00:00:00" "mchen" None
      Sample.school = (Ok r, w')
    /\ r !! "id" = Some (VStr Sample.oid_str)
    /\ r !! "_id" = Some (VOid Sample.oid).
Proof.
  eexists _, _. split; [vm_compute; reflexivity|].
  split; vm_compute; reflexivity.
Qed.

(** C1, at an announcement that is active by its timestamps. It was
    created at 09:00 to expire at 23:00 of the same day, written with a
    space between date and time. At 10:00 the spec's predicate holds for
    it, and [get_active_announcements] returns nothing: the store compares
    the strings, and a space sorts before the [T] of the current time. *)
Theorem active_announcement_not_listed :
  let w := snd (create_announcement "Exam" "2026-11-03 23:00:00" "mchen" None
                  Sample.school) in
  exists stored,
    announcements_collection w = [stored]
    /\ reading w = Sample.later
    /\ is_active_spec stored (reading w) = true
    /\ get_active_announcements w = (Ok [], tick w).
Proof.
  eexists. split; [vm_compute; reflexivity|].
  split; [reflexivity|]. split; vm_compute; reflexivity.
Qed.

(* ===================================================================== *)
(** ** Further properties of the handlers *)
(* ===================================================================== *)

Lemma active_query_selects current_time (d : document) :
  matches (active_query current_time) d = selected_by_strings current_time d.
Proof.
  unfold selected_by_strings. cbn [active_query matches forallb existsb].
  destruct (d !! "start_date") as [[|s|o]|]; cbn [orb];
    rewrite ?orb_false_r, ?andb_true_r; reflexivity.
Qed.

(** X1. [get_active_announcements] asks for no username, reads the clock
    once, leaves both collections alone, and returns, serialized and in
    stored order, the documents that pass the string comparisons of
    [selected_by_strings] against the current time in [isoformat]. *)
Theorem get_active_announcements_selects (w : World) :
  get_active_announcements w
  = (Ok (map serialize_announcement
           (List.filter (selected_by_strings (isoformat (reading w)))
              (announcements_collection w))),
     tick w).
Proof.
  unfold get_active_announcements, bind, datetime_now, announcements_find,
    ret, find. cbn [tick announcements_collection].
  do 3 f_equal. apply filter_ext. intros d. apply active_query_selects.
Qed.

(** X2. For a known teacher, [get_all_announcements] returns every stored
    document, serialized, and changes nothing. *)
Theorem get_all_announcements_lists_everything (username : string) (w : World) :
  known_teacher username w ->
  get_all_announcements username w
  = (Ok (map serialize_announcement (announcements_collection w)), w).
Proof.
  intros Hk. unfold get_all_announcements. rewrite auth_pass by exact Hk.
  unfold bind, announcements_find, ret, find. do 3 f_equal.
  induction (announcements_collection w) as [|d c IH]; [reflexivity|].
  cbn [List.filter matches]. f_equal. exact IH.
Qed.

Lemma get_all_announcements_lists_everything_witness :
  get_all_announcements "mchen" Sample.school_with_exam
  = (Ok [serialize_announcement Sample.exam], Sample.school_with_exam).
Proof.
  exact (get_all_announcements_lists_everything "mchen"
           Sample.school_with_exam mchen_known_exam).
Defined.

(** X3. A document that has an [_id] comes out of [serialize_announcement]
    with [id] holding that identifier as a string, without [_id], and with
    every other field as it was. *)
Theorem serialize_announcement_shape (d : document) (v : value) :
  d !! "_id" = Some v ->
  serialize_announcement d !! "id" = Some (VStr (py_str v))
  /\ serialize_announcement d !! "_id" = None
  /\ (forall k, k <> "id" -> k <> "_id" ->
      serialize_announcement d !! k = d !! k).
Proof.
  intros Hd. unfold serialize_announcement.
  assert (Ht : dict_truthy d = true).
  { apply bool_decide_eq_true. intros ->. rewrite lookup_empty in Hd.
    discriminate. }
  rewrite Ht, Hd. split; [|split].
  - rewrite lookup_delete_ne by discriminate. apply lookup_insert_eq.
  - apply lookup_delete_eq.
  - intros k Hk1 Hk2. rewrite lookup_delete_ne by congruence.
    apply lookup_insert_ne. congruence.
Qed.

Lemma serialize_announcement_shape_witness :
  serialize_announcement Sample.exam !! "id" = Some (VStr Sample.oid_str)
  /\ serialize_announcement Sample.exam !! "_id" = None.
Proof.
  destruct (serialize_announcement_shape Sample.exam (VOid Sample.oid)
              eq_refl) as (Hid & Hnone & _).
  split; [exact Hid | exact Hnone].
Defined.

(** X4. Every [create] that returns hands back a [dict] that still holds the
    store's [_id], next to [id]. *)
Theorem create_result_keeps_store_id
    (message expiration_date username : string) (start_date : option string)
    (w : World) (r : document) (w' : World) :
  create_announcement message expiration_date username start_date w
    = (Ok r, w') ->
  r !! "_id" = Some (VOid (objectids w (new_ids w)))
  /\ r !! "id" = Some (VStr (to_str (objectids w (new_ids w)))).
Proof.
  intros H.
  destruct (create_announcement_ok _ _ _ _ _ _ _ H) as (_ & _ & _ & _ & ->).
  split.
  - rewrite lookup_insert_ne by discriminate. apply lookup_insert_eq.
  - apply lookup_insert_eq.
Qed.

Lemma create_result_keeps_store_id_witness :
  exists r,
    fst (create_announcement "Exam" "2026-12-24T00:00:00" "mchen" None
           Sample.school) = Ok r
    /\ r !! "_id" = Some (VOid Sample.oid).
Proof.
  destruct (create_announcement "Exam" "2026-12-24T00:00:00" "mchen" None
              Sample.school) as [[r|e] w'] eqn:H.
  - exists r. split; [reflexivity|].
    exact (proj1 (create_result_keeps_store_id _ _ _ _ _ _ _ H)).
  - vm_compute in H. discriminate H.
Defined.

(** X5. Whenever the expiration date parses to an aware timestamp, which is
    the case for every date written with a [Z] or a numeric offset,
    [create] and [update] from a known teacher end in a [TypeError]. *)
Theorem aware_expiration_raises_type_error
    (expiration_date username : string) (exp_date : datetime) (w : World) :
  known_teacher username w ->
  parse_date expiration_date = Some exp_date ->
  tzinfo exp_date <> None ->
  (forall message start_date,
      create_announcement message expiration_date username start_date w
        = (Raise TypeError, tick w))
  /\ (forall announcement_id message start_date,
      update_announcement announcement_id message expiration_date username
        start_date w = (Raise TypeError, tick w)).
Proof.
  intros Hk Hexp Htz.
  assert (Hv : forall start_date,
    validate_dates expiration_date start_date w = (Raise TypeError, tick w)).
  { intros start_date. eapply validate_dates_incomparable; [exact Hexp|].
    now apply le_reading_aware. }
  split; intros.
  - now apply create_validation_raises.
  - now apply update_validation_raises.
Qed.

Lemma aware_expiration_raises_type_error_witness :
  create_announcement "Exam" "2999-01-02T00:00:00+01:00" "mchen" None
    Sample.school = (Raise TypeError, tick Sample.school).
Proof.
  eapply (aware_expiration_raises_type_error "2999-01-02T00:00:00+01:00"
            "mchen" _ Sample.school mchen_known).
  - reflexivity.
  - discriminate.
Defined.

(** X6. A naive expiration date that is not after the clock reading makes
    [create] and [update] from a known teacher fail with 400 "Expiration
    date must be in the future", whatever the start date. *)
Theorem expired_expiration_rejected
    (expiration_date username : string) (exp_date : datetime) (w : World) :
  known_teacher username w ->
  parse_date expiration_date = Some exp_date ->
  le exp_date (reading w) = Some true ->
  (forall message start_date,
      fails_with
        (create_announcement message expiration_date username start_date w)
        w 400 "Expiration date must be in the future")
  /\ (forall announcement_id message start_date,
      fails_with
        (update_announcement announcement_id message expiration_date username
           start_date w)
        w 400 "Expiration date must be in the future").
Proof.
  intros Hk Hexp Hle.
  assert (Hv : forall start_date,
    validate_dates expiration_date start_date w
    = (Raise (HTTPException 400 "Expiration date must be in the future"),
       tick w)).
  { intros start_date. eapply validate_dates_expired; [exact Hexp | exact Hle]. }
  split; intros.
  - eapply (validation_fails_with expiration_date start_date w); [apply Hv|].
    now apply create_validation_raises.
  - eapply (validation_fails_with expiration_date start_date w); [apply Hv|].
    now apply update_validation_raises.
Qed.

Lemma expired_expiration_rejected_witness :
  fails_with
    (create_announcement "Exam" "2000-01-01T00:00:00" "mchen" None
       Sample.school)
    Sample.school 400 "Expiration date must be in the future".
Proof.
  eapply (expired_expiration_rejected "2000-01-01T00:00:00" "mchen" _
            Sample.school mchen_known); reflexivity.
Defined.

(* ===================================================================== *)
(** ** Unique identifiers are an invariant *)
(* ===================================================================== *)

Section Unique.

Implicit Types (q : query) (d : document) (c : collection).

Lemma known_teacher_dec username w :
  {known_teacher username w} + {~ known_teacher username w}.
Proof.
  unfold known_teacher.
  destruct (find_one (QEq "_id" (VStr username)) (teachers_collection w)) as [t|].
  - left. now exists t.
  - right. intros [t Ht]. discriminate.
Qed.

Lemma update_one_ids q fields c :
  fields !! "_id" = None ->
  map (fun d => d !! "_id") (snd (update_one q fields c))
  = map (fun d => d !! "_id") c.
Proof.
  intros Hf. induction c as [|x c IH]; [reflexivity|].
  cbn [update_one]. destruct (matches q x).
  - cbn [snd map]. f_equal. now apply lookup_union_r.
  - destruct (update_one q fields c) as [n c']. cbn [snd map] in *.
    now rewrite IH.
Qed.

Lemma delete_one_sublist q c : sublist (snd (delete_one q c)) c.
Proof.
  induction c as [|x c IH]; [constructor|].
  cbn [delete_one]. destruct (matches q x).
  - cbn [snd]. now apply sublist_cons.
  - destruct (delete_one q c) as [n c']. cbn [snd] in *.
    now apply sublist_skip.
Qed.

Lemma unique_ids_sublist c1 c2 :
  sublist c1 c2 -> unique_ids c2 -> unique_ids c1.
Proof.
  unfold unique_ids. intros Hs Hu. eapply sublist_NoDup; [exact Hu|].
  clear Hu. induction Hs as [|x l1 l2 _ IH|x l1 l2 _ IH]; cbn [map].
  - constructor.
  - apply sublist_skip. exact IH.
  - apply sublist_cons. exact IH.
Qed.

Lemma insert_one_unique new_id doc c doc' inserted_id c' :
  unique_ids c ->
  insert_one new_id doc c = Some (doc', inserted_id, c') ->
  unique_ids c'.
Proof.
  unfold unique_ids, insert_one. intros Hu H.
  set (d1 := match doc !! "_id" with
             | Some _ => doc
             | None => <["_id" := VOid new_id]> doc
             end) in *.
  destruct (existsb _ c) eqn:Hex; [discriminate|].
  injection H as <- <- <-.
  assert (Hid : exists v, d1 !! "_id" = Some v).
  { subst d1. destruct (doc !! "_id") as [v|] eqn:Hd.
    - now exists v.
    - eexists. apply lookup_insert_eq. }
  destruct Hid as [v Hv]. rewrite Hv in Hex. cbn [default] in Hex.
  rewrite map_app. apply NoDup_app. split; [exact Hu|]. split.
  - intros x Hx Hx'. apply list_elem_of_In in Hx, Hx'.
    apply in_map_iff in Hx as (d & Hd & Hin).
    destruct Hx' as [Hx'|[]]. cbn beta in Hx'. rewrite Hv in Hx'.
    rewrite <- Hx' in Hd.
    assert (Hm : matches (QEq "_id" v) d = true).
    { cbn [matches]. rewrite Hd. now apply bool_decide_eq_true. }
    assert (Hex' : existsb (matches (QEq "_id" v)) c = true).
    { apply existsb_exists. now exists d. }
    change (id v) with v in Hex. congruence.
  - cbn [map]. apply NoDup_singleton.
Qed.

Variable w : World.
Hypothesis Hunique : unique_ids (announcements_collection w).

Lemma create_keeps_unique_ids message expiration_date username start_date :
  unique_ids
    (announcements_collection
       (snd (create_announcement message expiration_date username start_date
               w))).
Proof.
  unfold create_announcement.
  destruct (known_teacher_dec username w) as [Hk|Hk];
    [rewrite auth_pass by exact Hk | now rewrite auth_fail].
  unfold bind at 1.
  pose proof (validate_dates_collections expiration_date start_date w)
    as [Ha _].
  destruct (validate_dates expiration_date start_date w) as [[[]|e] w1];
    cbn [snd] in *; [|now rewrite Ha].
  unfold bind, datetime_now, announcements_insert_one, ret.
  cbn [tick announcements_collection objectids new_ids].
  destruct (insert_one _ _ (announcements_collection w1))
    as [[[doc' id] c]|] eqn:Hi.
  - cbn [snd with_announcements announcements_collection].
    eapply insert_one_unique; [|exact Hi]. now rewrite Ha.
  - rewrite new_announcement_no_id.
    cbn [snd tick announcements_collection]. now rewrite Ha.
Qed.

Lemma update_keeps_unique_ids
    announcement_id message expiration_date username start_date :
  unique_ids
    (announcements_collection
       (snd (update_announcement announcement_id message expiration_date
               username start_date w))).
Proof.
  unfold update_announcement.
  destruct (known_teacher_dec username w) as [Hk|Hk];
    [rewrite auth_pass by exact Hk | now rewrite auth_fail].
  unfold bind at 1.
  pose proof (validate_dates_collections expiration_date start_date w)
    as [Ha _].
  destruct (validate_dates expiration_date start_date w) as [[[]|e] w1];
    cbn [snd] in *; [|now rewrite Ha].
  destruct (of_str announcement_id) as [obj_id|];
    [|cbn [raise snd]; now rewrite Ha].
  unfold bind, datetime_now, announcements_update_one,
    announcements_find_one, raise, ret.
  cbn [tick announcements_collection].
  set (fields := update_fields _ _ _ _ _).
  pose proof (update_one_ids (QEq "_id" (VOid obj_id)) fields
                (announcements_collection w1)) as Hids.
  destruct (update_one _ fields (announcements_collection w1)) as [n c].
  cbn [snd] in Hids.
  assert (Hc : unique_ids c).
  { unfold unique_ids. rewrite Hids, Ha; [exact Hunique|].
    subst fields. unfold update_fields.
    rewrite !lookup_insert_ne by discriminate. apply lookup_empty. }
  destruct (n =? 0)%nat; exact Hc.
Qed.

Lemma delete_keeps_unique_ids announcement_id username :
  unique_ids
    (announcements_collection
       (snd (delete_announcement announcement_id username w))).
Proof.
  unfold delete_announcement.
  destruct (known_teacher_dec username w) as [Hk|Hk];
    [rewrite auth_pass by exact Hk | now rewrite auth_fail].
  destruct (of_str announcement_id) as [obj_id|]; [|exact Hunique].
  unfold bind, announcements_delete_one, raise, ret.
  pose proof (delete_one_sublist (QEq "_id" (VOid obj_id))
                (announcements_collection w)) as Hs.
  destruct (delete_one _ (announcements_collection w)) as [n c].
  cbn [snd] in Hs.
  assert (Hc : unique_ids c) by (eapply unique_ids_sublist; eauto).
  destruct (n =? 0)%nat; exact Hc.
Qed.

End Unique.

(** X7. No request breaks the uniqueness of [_id]: starting from a collection
    without duplicates, whatever [create], [update] or [delete] is asked
    and however it ends, the collection afterwards has none either. *)
Theorem unique_ids_preserved (w : World) :
  unique_ids (announcements_collection w) ->
  (forall message expiration_date username start_date,
      unique_ids
        (announcements_collection
           (snd (create_announcement message expiration_date username
                   start_date w))))
  /\ (forall announcement_id message expiration_date username start_date,
      unique_ids
        (announcements_collection
           (snd (update_announcement announcement_id message expiration_date
                   username start_date w))))
  /\ (forall announcement_id username,
      unique_ids
        (announcements_collection
           (snd (delete_announcement announcement_id username w)))).
Proof.
  intros Hu. split; [|split]; intros.
  - now apply create_keeps_unique_ids.
  - now apply update_keeps_unique_ids.
  - now apply delete_keeps_unique_ids.
Qed.

Lemma unique_ids_preserved_witness :
  unique_ids
    (announcements_collection
       (snd (create_announcement "Exam" "2026-12-24T00:00:00" "mchen" None
               Sample.school))).
Proof.
  apply (unique_ids_preserved Sample.school).
  vm_compute. constructor.
Defined.

(* ===================================================================== *)
(** ** Strings in [isoformat] layout sort as their timestamps *)
(* ===================================================================== *)

Section IsoformatOrder.

Lemma digit_char_compare x y :
  Ascii.compare (PyStr.digit_char x) (PyStr.digit_char y)
  = (x mod 10 ?= y mod 10).
Proof.
  unfold PyStr.digit_char.
  pose proof (Z.mod_pos_bound x 10 ltac:(lia)) as Hx.
  pose proof (Z.mod_pos_bound y 10 ltac:(lia)) as Hy.
  generalize dependent (x mod 10). generalize dependent (y mod 10).
  intros b Hb a Ha.
  assert (Ea : a = 0 \/ a = 1 \/ a = 2 \/ a = 3 \/ a = 4 \/ a = 5 \/ a = 6
               \/ a = 7 \/ a = 8 \/ a = 9) by lia.
  assert (Eb : b = 0 \/ b = 1 \/ b = 2 \/ b = 3 \/ b = 4 \/ b = 5 \/ b = 6
               \/ b = 7 \/ b = 8 \/ b = 9) by lia.
  clear Ha Hb.
  repeat (destruct Ea as [->|Ea]); try subst a;
    repeat (destruct Eb as [->|Eb]); try subst b; reflexivity.
Qed.

(** Comparing two numbers digit by digit, most significant first. *)
Lemma compare_split (p a1 a0 b1 b0 : Z) :
  0 <= a0 < p -> 0 <= b0 < p ->
  (a0 + p * a1 ?= b0 + p * b1)
  = match a1 ?= b1 with Eq => a0 ?= b0 | c => c end.
Proof.
  intros Ha Hb.
  destruct (Z.compare_spec a1 b1) as [E|E|E].
  - subst b1. destruct (Z.compare_spec a0 b0) as [E0|E0|E0].
    + subst b0. apply Z.compare_refl.
    + apply Z.compare_lt_iff. lia.
    + apply Z.compare_gt_iff. lia.
  - apply Z.compare_lt_iff. nia.
  - apply Z.compare_gt_iff. nia.
Qed.

Lemma append_cons c s r : String c s ++ r = String c (s ++ r).
Proof. reflexivity. Qed.

Lemma append_empty_r s : s ++ "" = s.
Proof.
  induction s as [|c s IH]; [reflexivity|].
  rewrite append_cons. now rewrite IH.
Qed.

Lemma compare_cons c s1 s2 :
  String.compare (String c s1) (String c s2) = String.compare s1 s2.
Proof.
  cbn [String.compare]. unfold Ascii.compare. now rewrite N.compare_refl.
Qed.

(** A separator character in front of both strings changes nothing. *)
Lemma compare_separator c r1 r2 :
  String.compare (String c "" ++ r1) (String c "" ++ r2)
  = String.compare r1 r2.
Proof. rewrite !append_cons. apply compare_cons. Qed.

Lemma compare_zero_pad w : forall a b r1 r2,
  String.compare (PyStr.zero_pad w a ++ r1) (PyStr.zero_pad w b ++ r2)
  = match a mod 10 ^ Z.of_nat w ?= b mod 10 ^ Z.of_nat w with
    | Eq => String.compare r1 r2
    | c => c
    end.
Proof.
  induction w as [|k IH]; intros a b r1 r2.
  - cbn [PyStr.zero_pad]. change (10 ^ Z.of_nat 0) with 1.
    now rewrite !Z.mod_1_r.
  - cbn [PyStr.zero_pad]. rewrite !append_cons. cbn [String.compare].
    rewrite digit_char_compare, IH.
    set (p := 10 ^ Z.of_nat k).
    assert (Hp : 0 < p) by (apply Z.pow_pos_nonneg; lia).
    replace (10 ^ Z.of_nat (S k)) with (p * 10)
      by (rewrite Nat2Z.inj_succ, Z.pow_succ_r by lia; subst p; ring).
    rewrite (Z.rem_mul_r a p 10), (Z.rem_mul_r b p 10) by lia.
    rewrite (compare_split p) by (apply Z.mod_pos_bound; lia).
    destruct (_ ?= _); reflexivity.
Qed.

Lemma compare_zero_pad_small w a b r1 r2 :
  0 <= a < 10 ^ Z.of_nat w -> 0 <= b < 10 ^ Z.of_nat w ->
  String.compare (PyStr.zero_pad w a ++ r1) (PyStr.zero_pad w b ++ r2)
  = match a ?= b with Eq => String.compare r1 r2 | c => c end.
Proof.
  intros Ha Hb. rewrite compare_zero_pad.
  now rewrite !Z.mod_small by assumption.
Qed.

(** The optional fraction of [isoformat]. *)
Lemma compare_fraction a b :
  0 <= a <= 999999 -> 0 <= b <= 999999 ->
  String.compare
    ((if a =? 0 then "" else "." ++ PyStr.zero_pad 6 a) ++ "")
    ((if b =? 0 then "" else "." ++ PyStr.zero_pad 6 b) ++ "")
  = (a ?= b).
Proof.
  intros Ha Hb. rewrite !append_empty_r.
  destruct (Z.eqb_spec a 0) as [->|Na]; destruct (Z.eqb_spec b 0) as [->|Nb].
  - reflexivity.
  - rewrite append_cons. cbn [String.compare].
    symmetry. apply Z.compare_lt_iff. lia.
  - rewrite append_cons. cbn [String.compare].
    symmetry. apply Z.compare_gt_iff. lia.
  - rewrite compare_separator.
    rewrite <- (append_empty_r (PyStr.zero_pad 6 a)).
    rewrite <- (append_empty_r (PyStr.zero_pad 6 b)).
    rewrite (compare_zero_pad_small 6) by (cbn; lia).
    destruct (a ?= b); reflexivity.
Qed.

Lemma valid_bounds d :
  valid d ->
  0 <= year d < 10 ^ 4 /\ 0 <= month d < 10 ^ 2 /\ 0 <= day d < 10 ^ 2
  /\ 0 <= hour d < 10 ^ 2 /\ 0 <= minute d < 10 ^ 2
  /\ 0 <= second d < 10 ^ 2 /\ 0 <= microsecond d <= 999999.
Proof.
  unfold valid, valid_fields. intros H.
  repeat (apply andb_prop in H as [H ?]).
  assert (days_in_month (year d) (month d) <= 31).
  { unfold days_in_month.
    repeat match goal with |- context [if ?b then _ else _] => destruct b end;
      lia. }
  cbn. lia.
Qed.

(** On valid naive timestamps, the byte order of the [isoformat] strings
    is the order of the timestamps. *)
Lemma isoformat_compare a b :
  valid a -> valid b -> tzinfo a = None -> tzinfo b = None ->
  String.compare (isoformat a) (isoformat b) = fields_cmp a b.
Proof.
  intros Va Vb Ta Tb.
  apply valid_bounds in Va as (Hy & Hmo & Hd & Hh & Hmi & Hs & Hus).
  apply valid_bounds in Vb as (Hy' & Hmo' & Hd' & Hh' & Hmi' & Hs' & Hus').
  unfold isoformat, fields_cmp. rewrite Ta, Tb.
  rewrite (compare_zero_pad_small 4) by assumption.
  destruct (year a ?= year b); try reflexivity.
  rewrite compare_separator, (compare_zero_pad_small 2) by assumption.
  destruct (month a ?= month b); try reflexivity.
  rewrite compare_separator, (compare_zero_pad_small 2) by assumption.
  destruct (day a ?= day b); try reflexivity.
  rewrite compare_separator, (compare_zero_pad_small 2) by assumption.
  destruct (hour a ?= hour b); try reflexivity.
  rewrite compare_separator, (compare_zero_pad_small 2) by assumption.
  destruct (minute a ?= minute b); try reflexivity.
  rewrite compare_separator, (compare_zero_pad_small 2) by assumption.
  destruct (second a ?= second b); try reflexivity.
  now apply compare_fraction.
Qed.

Lemma fields_cmp_antisym a b : fields_cmp b a = CompOpp (fields_cmp a b).
Proof.
  unfold fields_cmp.
  rewrite (Z.compare_antisym (year a) (year b)).
  rewrite (Z.compare_antisym (month a) (month b)).
  rewrite (Z.compare_antisym (day a) (day b)).
  rewrite (Z.compare_antisym (hour a) (hour b)).
  rewrite (Z.compare_antisym (minute a) (minute b)).
  rewrite (Z.compare_antisym (second a) (second b)).
  rewrite (Z.compare_antisym (microsecond a) (microsecond b)).
  repeat match goal with
         | |- context [CompOpp (?x ?= ?y)] => destruct (x ?= y); cbn [CompOpp]
         end; reflexivity.
Qed.

End IsoformatOrder.

Lemma selected_by_strings_canonical (d : document) (now : datetime) :
  valid now -> tzinfo now = None ->
  canonical_dates d ->
  selected_by_strings (isoformat now) d = is_active_spec d now.
Proof.
  intros Vn Tn [Hstart Hexp]. unfold selected_by_strings, is_active_spec.
  f_equal.
  - destruct (d !! "start_date") as [[|s|o]|]; try reflexivity.
    destruct (Hstart s eq_refl) as (dt & Hp & Tz & Vd & Hs).
    rewrite Hp. unfold String.leb. rewrite <- Hs.
    rewrite isoformat_compare by assumption.
    unfold le, cmp. rewrite Tz, Tn. cbn. destruct (fields_cmp dt now); reflexivity.
  - destruct (d !! "expiration_date") as [[|s|o]|]; try reflexivity.
    destruct (Hexp s eq_refl) as (dt & Hp & Tz & Vd & Hs).
    rewrite Hp. unfold String.leb. rewrite <- Hs.
    rewrite isoformat_compare by assumption.
    unfold ge, cmp. rewrite Tz, Tn. cbn.
    rewrite (fields_cmp_antisym dt now).
    destruct (fields_cmp dt now); reflexivity.
Qed.

(** X8. Where the stored dates are written as [isoformat] writes them,
    the string comparisons of the query decide exactly the spec's
    predicate on timestamps. *)
Theorem canonical_dates_selected_as_active (d : document) (now : datetime) :
  valid now -> tzinfo now = None ->
  canonical_dates d ->
  selected_by_strings (isoformat now) d = is_active_spec d now.
Proof. exact (selected_by_strings_canonical d now). Qed.

Lemma canonical_dates_selected_as_active_witness :
  selected_by_strings (isoformat Sample.later) Sample.exam
  = is_active_spec Sample.exam Sample.later.
Proof.
  apply canonical_dates_selected_as_active.
  - reflexivity.
  - reflexivity.
  - split; intros s Hs; vm_compute in Hs.
    + discriminate Hs.
    + injection Hs as <-. eexists. repeat split; vm_compute; reflexivity.
Defined.

(** X9. When the clock reading is a valid timestamp and every stored date is
    written as [isoformat] writes it, [get_active_announcements] returns
    exactly the announcements that are active by the spec's predicate on
    timestamps, serialized and in stored order. *)
Theorem get_active_announcements_on_canonical_dates (w : World) :
  valid (clock w (now_calls w)) ->
  Forall canonical_dates (announcements_collection w) ->
  get_active_announcements w
  = (Ok (map serialize_announcement
           (List.filter (fun d => is_active_spec d (reading w))
              (announcements_collection w))),
     tick w).
Proof.
  intros Vn Hc.
  unfold get_active_announcements, bind, datetime_now, announcements_find,
    ret, find. cbn [tick announcements_collection]. do 3 f_equal.
  induction Hc as [|d c Hd _ IH]; [reflexivity|].
  cbn [List.filter]. rewrite IH, active_query_selects.
  rewrite (selected_by_strings_canonical d (reading w));
    [reflexivity | exact Vn | reflexivity | exact Hd].
Qed.

Lemma get_active_announcements_on_canonical_dates_witness :
  fst (get_active_announcements Sample.school_with_exam)
  = Ok [serialize_announcement Sample.exam].
Proof.
  rewrite get_active_announcements_on_canonical_dates.
  - vm_compute. reflexivity.
  - reflexivity.
  - constructor; [|constructor].
    split; intros s Hs; vm_compute in Hs.
    + discriminate Hs.
    + injection Hs as <-. eexists. repeat split; vm_compute; reflexivity.
Defined.

(* ===================================================================== *)
(** ** How a request runs *)
(* ===================================================================== *)

Section Runs.

Implicit Types (q : query) (d : document) (c : collection).

Lemma update_one_unmatched q fields c :
  existsb (matches q) c = false -> update_one q fields c = (0%nat, c).
Proof.
  induction c as [|x c IH]; [reflexivity|].
  cbn [existsb update_one]. destruct (matches q x); [discriminate|].
  cbn [orb]. intros H. now rewrite (IH H).
Qed.

Lemma delete_one_unmatched q c :
  existsb (matches q) c = false -> delete_one q c = (0%nat, c).
Proof.
  induction c as [|x c IH]; [reflexivity|].
  cbn [existsb delete_one]. destruct (matches q x); [discriminate|].
  cbn [orb]. intros H. now rewrite (IH H).
Qed.

(** [delete_one] that deleted took out the first document matching the
    query and nothing else. *)
Lemma delete_one_matched q c :
  fst (delete_one q c) <> 0%nat ->
  exists pre d post,
    c = (pre ++ d :: post)%list
    /\ matches q d = true
    /\ Forall (fun x => matches q x = false) pre
    /\ snd (delete_one q c) = (pre ++ post)%list.
Proof.
  induction c as [|x c IH]; cbn [delete_one]; [intros H; now elim H|].
  destruct (matches q x) eqn:Hx.
  - intros _. exists [], x, c. repeat split; [exact Hx | constructor].
  - destruct (delete_one q c) as [n c'] eqn:Hu. cbn [fst snd] in *.
    intros Hn. destruct (IH Hn) as (pre & d & post & -> & Hd & Hpre & ->).
    exists (x :: pre), d, post. repeat split; [exact Hd|].
    constructor; assumption.
Qed.

Lemma unmatched_no_id v c :
  v <> VNone ->
  existsb (matches (QEq "_id" v)) c = false
  <-> Forall (fun x : document => x !! "_id" <> Some v) c.
Proof.
  intros Hv. induction c as [|x c IH]; cbn [existsb].
  - split; [constructor | reflexivity].
  - rewrite orb_false_iff, IH. split.
    + intros [Hx Hc]. constructor; [|exact Hc]. intros Hx'.
      apply (matches_eq_lookup "_id" v x Hv) in Hx'. congruence.
    + intros H. inversion H as [|? ? Hx Hc]; subst. split; [|exact Hc].
      destruct (matches (QEq "_id" v) x) eqn:Hm; [|reflexivity].
      apply (matches_eq_lookup "_id" v x Hv) in Hm. contradiction.
Qed.

Variable w : World.

(** Validation either passes, after one reading of the clock, or raises
    one of [date_errors]. *)
Lemma validate_dates_cases expiration_date start_date :
  validate_dates expiration_date start_date w = (Ok tt, tick w)
  \/ exists e w1,
       validate_dates expiration_date start_date w = (Raise e, w1)
       /\ In e date_errors /\ same_collections w w1.
Proof.
  pose proof (validate_dates_collections expiration_date start_date w)
    as [Ha Ht].
  unfold validate_dates, bind, datetime_now, raise, ret in *.
  unfold date_errors.
  destruct (parse_date expiration_date) as [e|];
    [|right; eexists _, _; split; [reflexivity|]; split;
      [cbn; tauto | split; assumption]].
  destruct (le e (reading w)) as [[|]|];
    try (right; eexists _, _; split; [reflexivity|]; split;
         [cbn; tauto | split; assumption]).
  destruct (PyStr.truthy start_date); [|now left].
  destruct (parse_date (default "" start_date)) as [s|];
    [|right; eexists _, _; split; [reflexivity|]; split;
      [cbn; tauto | split; assumption]].
  destruct (ge s e) as [[|]|];
    try (right; eexists _, _; split; [reflexivity|]; split;
         [cbn; tauto | split; assumption]).
  now left.
Qed.

Variable username : string.
Hypothesis Hknown : known_teacher username w.

(** The world after a [create] that got past validation: two readings of
    the clock and one identifier taken. *)
Let after_create : World :=
  mk_world (teachers_collection w) (announcements_collection w) (clock w)
    (S (S (now_calls w))) (objectids w) (S (new_ids w)).

Lemma create_announcement_run message expiration_date start_date :
  validate_dates expiration_date start_date w = (Ok tt, tick w) ->
  create_announcement message expiration_date username start_date w
  = let stored :=
      created_document message start_date expiration_date username w in
    if existsb (matches (QEq "_id" (VOid (objectids w (new_ids w)))))
         (announcements_collection w)
    then (Raise DuplicateKeyError, after_create)
    else (Ok (<["id" := VStr (to_str (objectids w (new_ids w)))]> stored),
          with_announcements (announcements_collection w ++ [stored])%list
            after_create).
Proof.
  intros Hv. unfold create_announcement. rewrite auth_pass by exact Hknown.
  unfold bind at 1. rewrite Hv.
  unfold bind, datetime_now, announcements_insert_one, insert_one, ret.
  rewrite new_announcement_no_id. rewrite lookup_insert_eq.
  change (default VNone (Some ?v)) with v.
  cbn [tick announcements_collection objectids new_ids].
  cbn zeta. unfold created_document.
  destruct (existsb _ (announcements_collection w)); reflexivity.
Qed.

Lemma update_announcement_run
    announcement_id obj_id message expiration_date start_date :
  validate_dates expiration_date start_date w = (Ok tt, tick w) ->
  of_str announcement_id = Some obj_id ->
  update_announcement announcement_id message expiration_date username
    start_date w
  = let found :=
      update_one (QEq "_id" (VOid obj_id))
        (update_fields message start_date expiration_date username
           (isoformat (reading (tick w))))
        (announcements_collection w) in
    if (fst found =? 0)%nat
    then (Raise (HTTPException 404 "Announcement not found"),
          with_announcements (snd found) (tick (tick w)))
    else (Ok (serialize_found
                (find_one (QEq "_id" (VOid obj_id)) (snd found))),
          with_announcements (snd found) (tick (tick w))).
Proof.
  intros Hv Hid. unfold update_announcement.
  rewrite auth_pass by exact Hknown. unfold bind at 1. rewrite Hv, Hid.
  unfold bind, datetime_now, announcements_update_one,
    announcements_find_one, raise, ret.
  cbn [tick announcements_collection]. cbn zeta.
  destruct (update_one _ _ (announcements_collection w)) as [n c].
  cbn [fst snd]. destruct (n =? 0)%nat; reflexivity.
Qed.

Lemma delete_announcement_run announcement_id obj_id :
  of_str announcement_id = Some obj_id ->
  delete_announcement announcement_id username w
  = let found :=
      delete_one (QEq "_id" (VOid obj_id)) (announcements_collection w) in
    if (fst found =? 0)%nat
    then (Raise (HTTPException 404 "Announcement not found"),
          with_announcements (snd found) w)
    else (Ok deleted_confirmation, with_announcements (snd found) w).
Proof.
  intros Hid. unfold delete_announcement.
  rewrite auth_pass by exact Hknown. rewrite Hid.
  unfold bind, announcements_delete_one, raise, ret. cbn zeta.
  destruct (delete_one _ (announcements_collection w)) as [n c].
  cbn [fst snd]. destruct (n =? 0)%nat; reflexivity.
Qed.

End Runs.

(* ===================================================================== *)
(** ** Outcomes of a request *)
(* ===================================================================== *)

Section Outcomes.

Implicit Types (q : query) (d : document) (c : collection).

Lemma update_one_zero q fields c :
  fst (update_one q fields c) = 0%nat -> snd (update_one q fields c) = c.
Proof.
  induction c as [|x c IH]; [reflexivity|]. cbn [update_one].
  destruct (matches q x); [discriminate|].
  destruct (update_one q fields c) as [n c']. cbn [fst snd] in *.
  intros Hn. now rewrite (IH Hn).
Qed.

Lemma delete_one_zero q c :
  fst (delete_one q c) = 0%nat -> snd (delete_one q c) = c.
Proof.
  induction c as [|x c IH]; [reflexivity|]. cbn [delete_one].
  destruct (matches q x); [discriminate|].
  destruct (delete_one q c) as [n c']. cbn [fst snd] in *.
  intros Hn. now rewrite (IH Hn).
Qed.

Variable w : World.

(** The teachers are as before, and an outcome that is an exception has
    left the announcements as before and is one of the handler's
    exceptions. *)
Let outcome {A} (errors : list exn) (out : result A * World) : Prop :=
  teachers_collection (snd out) = teachers_collection w
  /\ match fst out with
     | Ok _ => True
     | Raise e =>
         announcements_collection (snd out) = announcements_collection w
         /\ In e errors
     end.

Lemma get_active_announcements_outcome :
  outcome [] (get_active_announcements w)
  /\ raised (get_active_announcements w) = None.
Proof. repeat split. Qed.

Lemma get_all_announcements_outcome username :
  outcome [HTTPException 401 "Unauthorized"] (get_all_announcements username w).
Proof.
  unfold get_all_announcements.
  destruct (known_teacher_dec username w) as [Hk|Hk].
  - rewrite auth_pass by exact Hk. repeat split.
  - rewrite auth_fail by exact Hk. repeat split. now left.
Qed.

Lemma create_announcement_outcome message expiration_date username start_date :
  outcome create_errors
    (create_announcement message expiration_date username start_date w).
Proof.
  destruct (known_teacher_dec username w) as [Hk|Hk].
  - destruct (validate_dates_cases w expiration_date start_date)
      as [Hv | (e & w1 & Hv & Hin & Ha & Ht)].
    + rewrite (create_announcement_run w username Hk _ _ _ Hv). cbn zeta.
      destruct (existsb _ (announcements_collection w)); repeat split.
      cbn. tauto.
    + rewrite (create_validation_raises _ _ w username Hk message e w1 Hv).
      split; [exact Ht|]. split; [exact Ha|]. now do 2 right.
  - unfold create_announcement. rewrite auth_fail by exact Hk.
    repeat split. now left.
Qed.

Lemma update_announcement_outcome
    announcement_id message expiration_date username start_date :
  outcome update_errors
    (update_announcement announcement_id message expiration_date username
       start_date w).
Proof.
  destruct (known_teacher_dec username w) as [Hk|Hk].
  - destruct (validate_dates_cases w expiration_date start_date)
      as [Hv | (e & w1 & Hv & Hin & Ha & Ht)].
    + destruct (of_str announcement_id) as [obj_id|] eqn:Hid.
      * rewrite (update_announcement_run w username Hk _ _ _ _ _ Hv Hid).
        cbn zeta.
        pose proof (update_one_zero (QEq "_id" (VOid obj_id))
          (update_fields message start_date expiration_date username
             (isoformat (reading (tick w))))
          (announcements_collection w)) as Hz.
        destruct (update_one _ _ (announcements_collection w)) as [n c].
        cbn [fst snd] in *. destruct (Nat.eqb_spec n 0) as [->|Hn].
        -- split; [reflexivity|]. split; [now apply Hz | cbn; tauto].
        -- repeat split.
      * rewrite (update_malformed_id _ _ w username Hk _ message _ Hv Hid).
        repeat split. cbn. tauto.
    + rewrite (update_validation_raises _ _ w username Hk _ message e w1 Hv).
      split; [exact Ht|]. split; [exact Ha|]. now do 3 right.
  - unfold update_announcement. rewrite auth_fail by exact Hk.
    repeat split. now left.
Qed.

Lemma delete_announcement_outcome announcement_id username :
  outcome delete_errors (delete_announcement announcement_id username w).
Proof.
  destruct (known_teacher_dec username w) as [Hk|Hk].
  - destruct (of_str announcement_id) as [obj_id|] eqn:Hid.
    + rewrite (delete_announcement_run w username Hk _ _ Hid). cbn zeta.
      pose proof (delete_one_zero (QEq "_id" (VOid obj_id))
                    (announcements_collection w)) as Hz.
      destruct (delete_one _ (announcements_collection w)) as [n c].
      cbn [fst snd] in *. destruct (Nat.eqb_spec n 0) as [->|Hn].
      * split; [reflexivity|]. split; [now apply Hz | cbn; tauto].
      * repeat split.
    + unfold delete_announcement. rewrite auth_pass by exact Hk.
      rewrite Hid. repeat split. cbn. tauto.
  - unfold delete_announcement. rewrite auth_fail by exact Hk.
    repeat split. now left.
Qed.

End Outcomes.

(** X10. A request that ends in an exception, whichever it is, has changed
    neither collection: every handler writes at most once, and raises
    nothing after it has written. *)
Theorem failed_request_changes_nothing (w : World) :
  (forall username e,
      raised (get_all_announcements username w) = Some e ->
      same_collections w (snd (get_all_announcements username w)))
  /\ (forall message expiration_date username start_date e,
      raised (create_announcement message expiration_date username
                start_date w) = Some e ->
      same_collections w
        (snd (create_announcement message expiration_date username
                start_date w)))
  /\ (forall announcement_id message expiration_date username start_date e,
      raised (update_announcement announcement_id message expiration_date
                username start_date w) = Some e ->
      same_collections w
        (snd (update_announcement announcement_id message expiration_date
                username start_date w)))
  /\ (forall announcement_id username e,
      raised (delete_announcement announcement_id username w) = Some e ->
      same_collections w (snd (delete_announcement announcement_id username w))).
Proof.
  unfold raised, same_collections.
  split; [|split; [|split]]; intros.
  - pose proof (get_all_announcements_outcome w username) as [Ot O].
    destruct (fst _); [discriminate | tauto].
  - pose proof (create_announcement_outcome w message expiration_date
                  username start_date) as [Ot O].
    destruct (fst _); [discriminate | tauto].
  - pose proof (update_announcement_outcome w announcement_id message
                  expiration_date username start_date) as [Ot O].
    destruct (fst _); [discriminate | tauto].
  - pose proof (delete_announcement_outcome w announcement_id username)
      as [Ot O].
    destruct (fst _); [discriminate | tauto].
Qed.

Lemma failed_request_changes_nothing_witness :
  same_collections Sample.school_with_exam
    (snd (delete_announcement "ffffffffffffffffffffffff" "mchen"
            Sample.school_with_exam)).
Proof.
  destruct (failed_request_changes_nothing Sample.school_with_exam)
    as (_ & _ & _ & Hd).
  eapply Hd. reflexivity.
Defined.

(** X11. No request writes to the teachers collection: after any call of
    any handler, with any arguments and any outcome, it is what it was,
    so a username that was known stays known. *)
Theorem teachers_collection_never_modified (w : World) :
  teachers_collection (snd (get_active_announcements w))
    = teachers_collection w
  /\ (forall username,
      teachers_collection (snd (get_all_announcements username w))
        = teachers_collection w)
  /\ (forall message expiration_date username start_date,
      teachers_collection
        (snd (create_announcement message expiration_date username
                start_date w)) = teachers_collection w)
  /\ (forall announcement_id message expiration_date username start_date,
      teachers_collection
        (snd (update_announcement announcement_id message expiration_date
                username start_date w)) = teachers_collection w)
  /\ (forall announcement_id username,
      teachers_collection
        (snd (delete_announcement announcement_id username w))
        = teachers_collection w).
Proof.
  split; [reflexivity|]. split; [|split; [|split]]; intros.
  - apply (get_all_announcements_outcome w username).
  - apply (create_announcement_outcome w message expiration_date username
             start_date).
  - apply (update_announcement_outcome w announcement_id message
             expiration_date username start_date).
  - apply (delete_announcement_outcome w announcement_id username).
Qed.

(** X12. The exceptions a handler can end in. [get_active_announcements]
    never raises; [get_all_announcements] raises only the 401;
    [delete_announcement] only the 401, the 400 "Invalid announcement ID"
    and the 404; [update_announcement] those and what date validation
    raises (its three 400s and the [TypeError] of comparing a naive with
    an aware timestamp); [create_announcement] the 401, what date
    validation raises, and the store's [DuplicateKeyError]. *)
Theorem exceptions_of_each_handler (w : World) :
  raised (get_active_announcements w) = None
  /\ (forall username e,
      raised (get_all_announcements username w) = Some e ->
      e = HTTPException 401 "Unauthorized")
  /\ (forall message expiration_date username start_date e,
      raised (create_announcement message expiration_date username
                start_date w) = Some e ->
      In e create_errors)
  /\ (forall announcement_id message expiration_date username start_date e,
      raised (update_announcement announcement_id message expiration_date
                username start_date w) = Some e ->
      In e update_errors)
  /\ (forall announcement_id username e,
      raised (delete_announcement announcement_id username w) = Some e ->
      In e delete_errors).
Proof.
  unfold raised. split; [reflexivity|]. split; [|split; [|split]]; intros.
  - pose proof (get_all_announcements_outcome w username) as [_ O].
    destruct (fst _); [discriminate|]. injection H as ->.
    destruct O as [_ [<-|[]]]. reflexivity.
  - pose proof (create_announcement_outcome w message expiration_date
                  username start_date) as [_ O].
    destruct (fst _); [discriminate|]. injection H as ->. tauto.
  - pose proof (update_announcement_outcome w announcement_id message
                  expiration_date username start_date) as [_ O].
    destruct (fst _); [discriminate|]. injection H as ->. tauto.
  - pose proof (delete_announcement_outcome w announcement_id username)
      as [_ O].
    destruct (fst _); [discriminate|]. injection H as ->. tauto.
Qed.

Lemma exceptions_of_each_handler_witness :
  In (HTTPException 400 "Invalid date format") update_errors.
Proof.
  destruct (exceptions_of_each_handler Sample.school) as (_ & _ & _ & Hu & _).
  apply (Hu "x" "Exam" "soon" "mchen" None). reflexivity.
Defined.

(* ===================================================================== *)
(** ** Not found, and what a delete removes *)
(* ===================================================================== *)

Section Matching.

Implicit Types (q : query) (d : document) (c : collection).

Lemma update_one_count q fields c :
  fst (update_one q fields c) = if existsb (matches q) c then 1%nat else 0%nat.
Proof.
  induction c as [|d c IH]; cbn [update_one existsb]; [reflexivity|].
  destruct (matches q d); cbn [orb fst]; [reflexivity|].
  destruct (update_one q fields c). exact IH.
Qed.

Lemma unmatched_Forall q c :
  existsb (matches q) c = false <-> Forall (fun x => matches q x = false) c.
Proof.
  induction c as [|x c IH]; cbn [existsb].
  - split; [constructor | reflexivity].
  - rewrite orb_false_iff, IH. split.
    + intros [Hx Hc]. now constructor.
    + intros H. inversion H; subst. now split.
Qed.

Lemma delete_one_first q pre d post :
  Forall (fun x => matches q x = false) pre ->
  matches q d = true ->
  delete_one q (pre ++ d :: post) = (1%nat, (pre ++ post)%list).
Proof.
  intros Hpre Hd. induction Hpre as [|x pre Hx _ IH]; cbn [app delete_one].
  - now rewrite Hd.
  - now rewrite Hx, IH.
Qed.

End Matching.

(** A [delete] that returns has passed authentication, parsed the
    identifier, and removed the first document that carries it. *)
Lemma delete_announcement_ok (announcement_id username : string) (w : World)
    r w' :
  delete_announcement announcement_id username w = (Ok r, w') ->
  exists obj_id pre d post,
    known_teacher username w
    /\ of_str announcement_id = Some obj_id
    /\ announcements_collection w = (pre ++ d :: post)%list
    /\ d !! "_id" = Some (VOid obj_id)
    /\ Forall (fun x : document => x !! "_id" <> Some (VOid obj_id)) pre
    /\ w' = with_announcements (pre ++ post)%list w
    /\ r = deleted_confirmation.
Proof.
  intros H.
  destruct (known_teacher_dec username w) as [Hk|Hk];
    [|unfold delete_announcement in H; rewrite auth_fail in H by exact Hk;
      discriminate].
  destruct (of_str announcement_id) as [obj_id|] eqn:Hid;
    [|unfold delete_announcement in H; rewrite auth_pass, Hid in H by exact Hk;
      discriminate].
  rewrite (delete_announcement_run w username Hk _ _ Hid) in H. cbn zeta in H.
  pose proof (delete_one_matched (QEq "_id" (VOid obj_id))
                (announcements_collection w)) as Hm.
  destruct (delete_one _ (announcements_collection w)) as [n c].
  cbn [fst snd] in *. destruct (Nat.eqb_spec n 0) as [->|Hn]; [discriminate|].
  injection H as <- <-.
  destruct (Hm Hn) as (pre & d & post & Hc & Hd & Hpre & ->).
  exists obj_id, pre, d, post. repeat split; try assumption.
  - apply matches_eq_lookup in Hd; [exact Hd | discriminate].
  - apply unmatched_no_id; [discriminate|]. now apply unmatched_Forall.
Qed.

(** X13. For a known teacher, dates that pass validation and a well-formed
    identifier, [update] fails with 404 "Announcement not found" exactly
    when no stored document carries the identifier, and otherwise returns
    an announcement. *)
Theorem update_not_found_iff
    (announcement_id message expiration_date username : string)
    (start_date : option string) (obj_id : ObjectId) (w : World) :
  known_teacher username w ->
  validate_dates expiration_date start_date w = (Ok tt, tick w) ->
  of_str announcement_id = Some obj_id ->
  let out :=
    update_announcement announcement_id message expiration_date username
      start_date w in
  let absent :=
    Forall (fun d : document => d !! "_id" <> Some (VOid obj_id))
      (announcements_collection w) in
  (fst out = Raise (HTTPException 404 "Announcement not found") <-> absent)
  /\ (absent \/ exists a, fst out = Ok (Some a)).
Proof.
  intros Hk Hv Hid out absent. subst out absent.
  rewrite (update_announcement_run w username Hk _ _ _ _ _ Hv Hid). cbn zeta.
  set (q := QEq "_id" (VOid obj_id)).
  set (fields := update_fields _ _ _ _ _).
  pose proof (update_one_count q fields (announcements_collection w)) as Hn.
  pose proof (update_one_matched q fields (announcements_collection w)) as Hm.
  rewrite <- (unmatched_no_id (VOid obj_id)) by discriminate. fold q.
  destruct (existsb (matches q) (announcements_collection w)) eqn:Hex;
    rewrite Hn; cbn [Nat.eqb fst].
  - split; [split; discriminate|]. right.
    rewrite Hn in Hm. destruct (Hm ltac:(discriminate))
      as (pre & d & post & _ & Hd & Hpre & ->).
    assert (Hd' : matches q (fields ∪ d) = true).
    { apply matches_eq_lookup; [discriminate|].
      subst fields. rewrite update_fields_frame.
      - apply matches_eq_lookup in Hd; [exact Hd | discriminate].
      - cbn. intuition discriminate. }
    rewrite (find_one_first q _ _ _ Hpre Hd'). eexists. reflexivity.
  - split; [tauto | now left].
Qed.

Lemma update_not_found_iff_witness :
  fst (update_announcement "ffffffffffffffffffffffff" "Exam moved"
         "2026-12-25T00:00:00" "mchen" None Sample.school_with_exam)
  = Raise (HTTPException 404 "Announcement not found").
Proof.
  apply (update_not_found_iff "ffffffffffffffffffffffff" "Exam moved"
           "2026-12-25T00:00:00" "mchen" None _ Sample.school_with_exam
           mchen_known_exam eq_refl eq_refl).
  repeat constructor. vm_compute. discriminate.
Defined.

(** X14. A [delete] that returns has removed exactly one document, the
    first one carrying the identifier; the documents before and after it
    are kept, in order, and nothing else in the world has changed. *)
Theorem delete_removes_exactly_one
    (announcement_id username : string) (w : World)
    (r : gmap string string) (w' : World) :
  delete_announcement announcement_id username w = (Ok r, w') ->
  exists obj_id pre d post,
    of_str announcement_id = Some obj_id
    /\ announcements_collection w = (pre ++ d :: post)%list
    /\ d !! "_id" = Some (VOid obj_id)
    /\ Forall (fun x : document => x !! "_id" <> Some (VOid obj_id)) pre
    /\ w' = with_announcements (pre ++ post)%list w.
Proof.
  intros H.
  destruct (delete_announcement_ok _ _ _ _ _ H)
    as (obj_id & pre & d & post & _ & Hid & Hc & Hd & Hpre & Hw & _).
  exists obj_id, pre, d, post. auto.
Qed.

Lemma delete_removes_exactly_one_witness :
  snd (delete_announcement Sample.oid_str "mchen" Sample.school_with_exam)
  = with_announcements [] Sample.school_with_exam.
Proof.
  destruct (delete_announcement Sample.oid_str "mchen" Sample.school_with_exam)
    as [[r|e] w'] eqn:H.
  - destruct (delete_removes_exactly_one _ _ _ _ _ H)
      as (obj_id & pre & d & post & _ & Hc & _ & _ & ->).
    cbn [snd]. destruct pre as [|x pre]; [|destruct pre; discriminate Hc].
    injection Hc as _ <-. reflexivity.
  - vm_compute in H. discriminate H.
Defined.

(* ===================================================================== *)
(** ** The identifier [create] returns *)
(* ===================================================================== *)

Section Identifier.

Lemma hex_char_val n :
  (n < 16)%N ->
  is_space (hex_char n) = false /\ hex_val (hex_char n) = Some n.
Proof.
  intros Hn.
  pose (ok := fun k : nat =>
          let m := N.of_nat k in
          negb (is_space (hex_char m))
          && match hex_val (hex_char m) with
             | Some x => N.eqb x m
             | None => false
             end).
  assert (Hall : forallb ok (seq 0 16) = true) by reflexivity.
  rewrite forallb_forall in Hall.
  assert (Hin : In (N.to_nat n) (seq 0 16)) by (apply in_seq; lia).
  apply Hall in Hin. unfold ok in Hin. cbn zeta in Hin.
  rewrite N2Nat.id in Hin. apply andb_prop in Hin as [Hs Hv].
  split.
  - now destruct (is_space (hex_char n)).
  - destruct (hex_val (hex_char n)) as [x|]; [|discriminate].
    apply N.eqb_eq in Hv. now subst x.
Qed.

(** [bytes.fromhex] reads back what [hexlify] wrote. *)
Lemma fromhex_hexlify bs :
  Forall (fun b => (b < 256)%N) bs -> fromhex (hexlify bs) = Some bs.
Proof.
  induction 1 as [|b bs Hb _ IH]; [reflexivity|].
  cbn [hexlify fromhex].
  assert (Hhi : (b / 16 < 16)%N) by (apply N.Div0.div_lt_upper_bound; lia).
  assert (Hlo : (b mod 16 < 16)%N) by (apply N.mod_lt; lia).
  destruct (hex_char_val _ Hhi) as [-> ->].
  destruct (hex_char_val _ Hlo) as [_ ->].
  rewrite IH. cbn. do 2 f_equal.
  rewrite (N.div_mod b 16) at 3 by lia. reflexivity.
Qed.

Lemma hexlify_length bs : String.length (hexlify bs) = (2 * length bs)%nat.
Proof.
  induction bs as [|b bs IH]; [reflexivity|].
  cbn [hexlify String.length length]. rewrite IH. lia.
Qed.

(** The string of a generated identifier parses back to it. *)
Lemma of_str_to_str o : generated o -> of_str (to_str o) = Some o.
Proof.
  intros [Hlen Hbytes]. unfold of_str, to_str.
  rewrite hexlify_length, Hlen. cbn [Nat.mul Nat.add Nat.eqb].
  rewrite (fromhex_hexlify _ Hbytes). now destruct o.
Qed.

End Identifier.

(** A [create] that returns found the generated identifier free. *)
Lemma create_announcement_fresh
    (message expiration_date username : string) (start_date : option string)
    (w : World) r w' :
  create_announcement message expiration_date username start_date w
    = (Ok r, w') ->
  Forall (fun x => matches (QEq "_id" (VOid (objectids w (new_ids w)))) x
                   = false)
    (announcements_collection w).
Proof.
  intros H.
  destruct (create_announcement_ok _ _ _ _ _ _ _ H) as (Hk & Hv & _).
  rewrite (create_announcement_run w username Hk _ _ _ Hv) in H.
  cbn zeta in H. apply unmatched_Forall.
  destruct (existsb _ (announcements_collection w)); [discriminate|reflexivity].
Qed.

Lemma created_document_matches message start_date expiration_date username w :
  matches (QEq "_id" (VOid (objectids w (new_ids w))))
    (created_document message start_date expiration_date username w) = true.
Proof.
  apply matches_eq_lookup; [discriminate|]. apply lookup_insert_eq.
Qed.

Lemma get_all_announcements_run username w :
  known_teacher username w ->
  get_all_announcements username w
  = (Ok (map serialize_announcement (announcements_collection w)), w).
Proof.
  intros Hk. unfold get_all_announcements. rewrite auth_pass by exact Hk.
  unfold bind, announcements_find, ret, find. do 3 f_equal.
  induction (announcements_collection w) as [|d c IH]; [reflexivity|].
  cbn [List.filter matches]. f_equal. exact IH.
Qed.

(** X15. The [id] that [create] returns designates the created document:
    when the generated identifier is twelve bytes, the string under [id]
    is accepted by [ObjectId], parses back to the generated identifier, and
    looking that identifier up in the store finds the document that was
    just stored. *)
Theorem created_id_round_trip
    (message expiration_date username : string) (start_date : option string)
    (w : World) (r : document) (w' : World) :
  create_announcement message expiration_date username start_date w
    = (Ok r, w') ->
  generated (objectids w (new_ids w)) ->
  exists id_string,
    r !! "id" = Some (VStr id_string)
    /\ of_str id_string = Some (objectids w (new_ids w))
    /\ find_one (QEq "_id" (VOid (objectids w (new_ids w))))
         (announcements_collection w')
       = Some (created_document message start_date expiration_date
                 username w).
Proof.
  intros H Hgen.
  pose proof (create_announcement_fresh _ _ _ _ _ _ _ H) as Hfresh.
  destruct (create_announcement_ok _ _ _ _ _ _ _ H) as (_ & _ & Hc & _ & ->).
  eexists. split; [apply lookup_insert_eq|].
  split; [now apply of_str_to_str|].
  rewrite Hc. apply find_one_first; [exact Hfresh|].
  apply created_document_matches.
Qed.

Lemma created_id_round_trip_witness :
  exists r w',
    create_announcement "Exam" "2026-12-24T00:00:00" "mchen" None
      Sample.school = (Ok r, w')
    /\ r !! "id" = Some (VStr Sample.oid_str)
    /\ of_str Sample.oid_str = Some Sample.oid
    /\ find_one (QEq "_id" (VOid Sample.oid)) (announcements_collection w')
       = Some Sample.exam.
Proof.
  destruct (create_announcement "Exam" "2026-12-24T00:00:00" "mchen" None
              Sample.school) as [[r|e] w'] eqn:H.
  - exists r, w'. split; [reflexivity|].
    destruct (created_id_round_trip _ _ _ _ _ _ _ H) as (s & Hs & Hp & Hf).
    + split; [reflexivity|]. repeat constructor.
    + assert (Hs' : r !! "id" = Some (VStr Sample.oid_str)).
      { destruct (create_announcement_ok _ _ _ _ _ _ _ H)
          as (_ & _ & _ & _ & ->). apply lookup_insert_eq. }
      split; [exact Hs'|]. split; [reflexivity|]. exact Hf.
  - vm_compute in H. discriminate H.
Defined.

(** X16. Deleting what was just created restores the collection: after a
    [create] that returns, a [delete] by any known teacher with the
    returned [id] succeeds, and the announcements are exactly those from
    before the [create]. *)
Theorem create_then_delete_restores
    (message expiration_date username deleter : string)
    (start_date : option string) (w : World) (r : document) (w' : World) :
  create_announcement message expiration_date username start_date w
    = (Ok r, w') ->
  generated (objectids w (new_ids w)) ->
  known_teacher deleter w ->
  let id_string := to_str (objectids w (new_ids w)) in
  r !! "id" = Some (VStr id_string)
  /\ fst (delete_announcement id_string deleter w') = Ok deleted_confirmation
  /\ announcements_collection (snd (delete_announcement id_string deleter w'))
     = announcements_collection w.
Proof.
  intros H Hgen Hd id_string.
  pose proof (create_announcement_fresh _ _ _ _ _ _ _ H) as Hfresh.
  destruct (create_announcement_ok _ _ _ _ _ _ _ H) as (_ & _ & Hc & Ht & ->).
  split; [apply lookup_insert_eq|].
  assert (Hd' : known_teacher deleter w').
  { unfold known_teacher. rewrite Ht. exact Hd. }
  rewrite (delete_announcement_run w' deleter Hd' id_string _
             (of_str_to_str _ Hgen)).
  cbn zeta. rewrite Hc.
  rewrite (delete_one_first _ _ _ [] Hfresh
             (created_document_matches _ _ _ _ _)).
  cbn [fst snd Nat.eqb with_announcements announcements_collection].
  split; [reflexivity | apply app_nil_r].
Qed.

Lemma create_then_delete_restores_witness :
  announcements_collection
    (snd (delete_announcement Sample.oid_str "mchen"
            (snd (create_announcement "Exam" "2026-12-24T00:00:00" "mchen"
                    None Sample.school))))
  = announcements_collection Sample.school.
Proof.
  destruct (create_announcement "Exam" "2026-12-24T00:00:00" "mchen" None
              Sample.school) as [[r|e] w'] eqn:H.
  - cbn [snd].
    destruct (create_then_delete_restores _ _ _ "mchen" _ _ _ _ H)
      as (_ & _ & Hc).
    + split; [reflexivity|]. repeat constructor.
    + exact mchen_known.
    + exact Hc.
  - vm_compute in H. discriminate H.
Defined.

(** X17. What was just created is what [get_all_announcements] lists
    last: after a [create] that returns, the list for any known teacher is
    the serialized announcements from before, followed by the created one
    exactly as [create] returned it, without its [_id]. *)
Theorem create_then_list_all
    (message expiration_date username reader : string)
    (start_date : option string) (w : World) (r : document) (w' : World) :
  create_announcement message expiration_date username start_date w
    = (Ok r, w') ->
  known_teacher reader w ->
  get_all_announcements reader w'
  = (Ok (map serialize_announcement (announcements_collection w)
           ++ [delete "_id" r])%list, w').
Proof.
  intros H Hr.
  destruct (create_announcement_ok _ _ _ _ _ _ _ H) as (_ & _ & Hc & Ht & ->).
  assert (Hr' : known_teacher reader w').
  { unfold known_teacher. rewrite Ht. exact Hr. }
  rewrite (get_all_announcements_run reader w' Hr'), Hc, map_app.
  cbn [map].
  enough (E : serialize_announcement
                (created_document message start_date expiration_date
                   username w)
              = delete "_id"
                  (<["id" := VStr (to_str (objectids w (new_ids w)))]>
                     (created_document message start_date expiration_date
                        username w)))
    by now rewrite E.
  unfold serialize_announcement.
  assert (Hid : created_document message start_date expiration_date username w
                !! "_id" = Some (VOid (objectids w (new_ids w))))
    by apply lookup_insert_eq.
  rewrite Hid.
  assert (Htr : dict_truthy
                  (created_document message start_date expiration_date
                     username w) = true).
  { apply bool_decide_eq_true. intros E. rewrite E, lookup_empty in Hid.
    discriminate. }
  rewrite Htr. reflexivity.
Qed.

Lemma create_then_list_all_witness :
  fst (get_all_announcements "mchen"
         (snd (create_announcement "Exam" "2026-12-24T00:00:00" "mchen" None
                 Sample.school)))
  = Ok [serialize_announcement Sample.exam].
Proof.
  destruct (create_announcement "Exam" "2026-12-24T00:00:00" "mchen" None
              Sample.school) as [[r|e] w'] eqn:H.
  - cbn [snd]. rewrite (create_then_list_all _ _ _ "mchen" _ _ _ _ H mchen_known).
    cbn [fst]. vm_compute in H. injection H as <- _. vm_compute. reflexivity.
  - vm_compute in H. discriminate H.
Defined.

(* ===================================================================== *)
(** ** After a delete; what is returned; what is not validated *)
(* ===================================================================== *)




Lemma serialize_no_store_id (d : document) :
  serialize_announcement d !! "_id" = None.
Proof.
  unfold serialize_announcement.
  destruct (d !! "_id") as [v|] eqn:Hd.
  - destruct (dict_truthy d) eqn:Ht; [apply lookup_delete_eq|].
    apply bool_decide_eq_false in Ht. exfalso. apply Ht. intros ->.
    rewrite lookup_empty in Hd. discriminate.
  - destruct (dict_truthy d); exact Hd.
Qed.

Lemma serialize_without_id (d : document) :
  d !! "_id" = None -> serialize_announcement d = d.
Proof.
  intros Hd. unfold serialize_announcement. rewrite Hd.
  now destruct (dict_truthy d).
Qed.

(** X19. [serialize_announcement] never returns a document with [_id],
    whatever it is given; a document without [_id], the empty one
    included, comes back unchanged; and serializing twice is serializing
    once. *)
Theorem serialize_announcement_drops_store_id (d : document) :
  serialize_announcement d !! "_id" = None
  /\ (d !! "_id" = None -> serialize_announcement d = d)
  /\ serialize_announcement (serialize_announcement d)
     = serialize_announcement d.
Proof.
  split; [apply serialize_no_store_id|].
  split; [apply serialize_without_id|].
  apply serialize_without_id, serialize_no_store_id.
Qed.

Lemma serialize_announcement_drops_store_id_witness :
  serialize_announcement ∅ = ∅.
Proof.
  apply (serialize_announcement_drops_store_id ∅). reflexivity.
Defined.

(** X20. No announcement that [get_active_announcements],
    [get_all_announcements] or [update_announcement] returns carries
    [_id]; and a returning [update] returns an announcement, never
    [None], whose [id] is the identifier it was asked for. *)
Theorem listed_and_updated_announcements_are_serialized (w : World) :
  match fst (get_active_announcements w) with
  | Ok announcements =>
      Forall (fun a : document => a !! "_id" = None) announcements
  | Raise _ => True
  end
  /\ (forall username,
      match fst (get_all_announcements username w) with
      | Ok announcements =>
          Forall (fun a : document => a !! "_id" = None) announcements
      | Raise _ => True
      end)
  /\ (forall announcement_id message expiration_date username start_date,
      match fst (update_announcement announcement_id message expiration_date
                   username start_date w) with
      | Ok (Some a) =>
          a !! "_id" = None
          /\ exists obj_id,
               of_str announcement_id = Some obj_id
               /\ a !! "id" = Some (VStr (to_str obj_id))
      | Ok None => False
      | Raise _ => True
      end).
Proof.
  assert (Hmap : forall c : collection,
    Forall (fun a : document => a !! "_id" = None)
      (map serialize_announcement c)).
  { induction c as [|d c IH]; constructor;
      [apply serialize_no_store_id | exact IH]. }
  split; [apply Hmap|]. split.
  - intros username. destruct (known_teacher_dec username w) as [Hk|Hk].
    + rewrite (get_all_announcements_run username w Hk). apply Hmap.
    + unfold get_all_announcements. now rewrite auth_fail.
  - intros announcement_id message expiration_date username start_date.
    destruct (update_announcement _ _ _ _ _ _) as [[a|e] w'] eqn:Hup;
      [|exact I].
    destruct (update_announcement_ok _ _ _ _ _ _ _ _ Hup)
      as (o & pre & d & post & _ & _ & Hid & _ & Hd & _ & _ & _ & _ & ->).
    cbn [fst]. split; [apply serialize_no_store_id|].
    exists o. split; [exact Hid|].
    set (d' := _ ∪ d).
    assert (Hd' : d' !! "_id" = Some (VOid o)).
    { subst d'. rewrite update_fields_frame; [exact Hd|].
      cbn. intuition discriminate. }
    unfold serialize_announcement. rewrite Hd'.
    assert (Ht : dict_truthy d' = true).
    { apply bool_decide_eq_true. intros E. rewrite E, lookup_empty in Hd'.
      discriminate. }
    rewrite Ht. rewrite lookup_delete_ne by discriminate.
    apply lookup_insert_eq.
Qed.

(** X21. The message is never validated: whether a [create] or an
    [update] fails, and with which exception, does not depend on the
    message, so the empty message is accepted wherever any message is. *)
Theorem message_is_not_validated
    (message message' expiration_date username : string)
    (start_date : option string) (w : World) :
  raised (create_announcement message expiration_date username start_date w)
  = raised (create_announcement message' expiration_date username
              start_date w)
  /\ forall announcement_id,
       raised (update_announcement announcement_id message expiration_date
                 username start_date w)
       = raised (update_announcement announcement_id message'
                   expiration_date username start_date w).
Proof.
  destruct (known_teacher_dec username w) as [Hk|Hk].
  - destruct (validate_dates_cases w expiration_date start_date)
      as [Hv | (e & w1 & Hv & _)].
    + split.
      * rewrite !(create_announcement_run w username Hk _ _ _ Hv). cbn zeta.
        now destruct (existsb _ (announcements_collection w)).
      * intros announcement_id.
        destruct (of_str announcement_id) as [obj_id|] eqn:Hid.
        -- rewrite !(update_announcement_run w username Hk _ _ _ _ _ Hv Hid).
           cbn zeta. rewrite !update_one_count.
           now destruct (existsb _ (announcements_collection w)).
        -- now rewrite !(update_malformed_id _ _ w username Hk _ _ _ Hv Hid).
    + split; [|intros announcement_id].
      * now rewrite !(create_validation_raises _ _ w username Hk _ e w1 Hv).
      * now rewrite !(update_validation_raises _ _ w username Hk _ _ e w1 Hv).
  - unfold create_announcement, update_announcement.
    split; [|intros announcement_id]; now rewrite !auth_fail by exact Hk.
Qed.

Lemma message_is_not_validated_witness :
  raised (create_announcement "" "2026-12-24T00:00:00" "mchen" None
            Sample.school) = None.
Proof.
  rewrite (proj1 (message_is_not_validated "" "Exam" "2026-12-24T00:00:00"
                    "mchen" None Sample.school)).
  reflexivity.
Defined.

(* ===================================================================== *)
(** ** Which dates are accepted; updating what was created *)
(* ===================================================================== *)





Lemma update_one_first (q : query) (fields : document) pre d post :
  Forall (fun x => matches q x = false) pre ->
  matches q d = true ->
  update_one q fields (pre ++ d :: post)
  = (1%nat, (pre ++ (fields ∪ d) :: post)%list).
Proof.
  intros Hpre Hd. induction Hpre as [|x pre Hx _ IH]; cbn [app update_one].
  - now rewrite Hd.
  - now rewrite Hx, IH.
Qed.

(** X23. Updating what was just created: after a [create] that returns,
    an [update] with the returned [id], by any known teacher and with
    dates that pass validation, returns the announcement with the new
    message and the updater's name, and with the [created_by] and
    [created_at] that the [create] gave it. *)
Theorem create_then_update_keeps_creation
    (message expiration_date username : string) (start_date : option string)
    (message' expiration_date' updater : string) (start_date' : option string)
    (w : World) (r : document) (w' : World) :
  create_announcement message expiration_date username start_date w
    = (Ok r, w') ->
  generated (objectids w (new_ids w)) ->
  known_teacher updater w ->
  validate_dates expiration_date' start_date' w' = (Ok tt, tick w') ->
  let id_string := to_str (objectids w (new_ids w)) in
  exists a,
    fst (update_announcement id_string message' expiration_date' updater
           start_date' w') = Ok (Some a)
    /\ a !! "id" = Some (VStr id_string)
    /\ a !! "message" = Some (VStr message')
    /\ a !! "updated_by" = Some (VStr updater)
    /\ a !! "created_by" = Some (VStr username)
    /\ a !! "created_at" = Some (VStr (isoformat (reading (tick w)))).
Proof.
  intros H Hgen Hu Hv id_string.
  pose proof (create_announcement_fresh _ _ _ _ _ _ _ H) as Hfresh.
  destruct (create_announcement_ok _ _ _ _ _ _ _ H) as (_ & _ & Hc & Ht & _).
  assert (Hu' : known_teacher updater w').
  { unfold known_teacher. rewrite Ht. exact Hu. }
  rewrite (update_announcement_run w' updater Hu' id_string _ _ _ _ Hv
             (of_str_to_str _ Hgen)).
  cbn zeta. rewrite Hc.
  set (q := QEq "_id" (VOid (objectids w (new_ids w)))).
  set (fields := update_fields _ _ _ _ _).
  set (stored := created_document message start_date expiration_date
                   username w).
  assert (Hm : matches q stored = true) by apply created_document_matches.
  rewrite (update_one_first q fields _ stored [] Hfresh Hm).
  cbn [fst snd Nat.eqb].
  assert (Hid : (fields ∪ stored) !! "_id"
                = Some (VOid (objectids w (new_ids w)))).
  { subst fields. rewrite update_fields_frame.
    - apply lookup_insert_eq.
    - cbn. intuition discriminate. }
  assert (Hm' : matches q (fields ∪ stored) = true)
    by (apply matches_eq_lookup; [discriminate | exact Hid]).
  rewrite (find_one_first q _ _ _ Hfresh Hm').
  eexists. split; [reflexivity|].
  unfold serialize_announcement. rewrite Hid.
  assert (Htr : dict_truthy (fields ∪ stored) = true).
  { apply bool_decide_eq_true. intros E. rewrite E, lookup_empty in Hid.
    discriminate. }
  rewrite Htr.
  subst fields stored. repeat split.
Qed.

Lemma create_then_update_keeps_creation_witness :
  exists a,
    fst (update_announcement Sample.oid_str "Exam moved" "2026-12-25T00:00:00"
           "mchen" None
           (snd (create_announcement "Exam" "2026-12-24T00:00:00" "mchen"
                   None Sample.school))) = Ok (Some a)
    /\ a !! "created_at" = Some (VStr "2026-11-03T09:00:00").
Proof.
  destruct (create_announcement "Exam" "2026-12-24T00:00:00" "mchen" None
              Sample.school) as [[r|e] w'] eqn:H.
  - cbn [snd].
    assert (Hw : w' = snd (create_announcement "Exam" "2026-12-24T00:00:00"
                             "mchen" None Sample.school)) by now rewrite H.
    destruct (create_then_update_keeps_creation _ _ _ _ "Exam moved"
                "2026-12-25T00:00:00" "mchen" None _ _ _ H)
      as (a & Ha & _ & _ & _ & _ & Hat).
    + split; [reflexivity|]. repeat constructor.
    + exact mchen_known.
    + rewrite Hw. vm_compute. reflexivity.
    + exists a. split; [exact Ha | exact Hat].
  - vm_compute in H. discriminate H.
Defined.
